(** * specialsoss.binning: 1D spectral extraction by wavelength binning

    A shallow embedding of [src/specialsoss/binning.py] ([bin_counts] and
    [extract]) and the properties its specification states about them.

    Modelling conventions.
    - A numpy array is a shape, the kind of its dtype and its elements in
      row-major order; an element of a 3D array at [(f, x, y)] sits at
      position [f * rows * cols + x * cols + y].  [reshape] of a 4D array
      is a view when the first two axes can be merged in place (as for a
      C-contiguous array) and a copy otherwise; an in-place update
      through a view is an update of the caller's array, and a
      read-only array refuses it.
    - The numbers the arrays hold are kept abstract ([FloatOps]): the
      model fixes which operations are applied to which elements, not how
      they round or in which order a sum associates.  The kind of a dtype
      decides whether an in-place product can be cast back.  [xfloat] is
      a small exact instance used to run the code on concrete inputs.
    - Python exceptions are the [Raise] results of an error monad;
      [extract] runs in a state monad over the caller's data array, the
      state of the random generator and the standard output.
    - The functions of other packages ([hotsoss], [numpy.random]) and
      [specialsoss.utilities.combine_spectra] are parameters of
      [extract]. *)

From Stdlib Require Import ZArith QArith Lia.
From stdpp Require Import base list sorting gmap strings pretty.

Local Open Scope nat_scope.

(** ** Exceptions and the error monad *)

Inductive exn : Type :=
  | IndexError
  | KeyError
  | ValueError
  | NameError
  | TypeError
  | External.

Inductive result (A : Type) : Type :=
  | Ok (a : A)
  | Raise (e : exn).
Arguments Ok {A} a.
Arguments Raise {A} e.

Definition rbind {A B : Type} (m : result A) (k : A -> result B) : result B :=
  match m with
  | Ok a => k a
  | Raise e => Raise e
  end.

Notation "x <- m ;;; k" := (rbind m (fun x => k))
  (at level 20, m at level 100, k at level 200, only parsing).

Definition is_ok {A : Type} (m : result A) : bool :=
  match m with Ok _ => true | Raise _ => false end.

Fixpoint rmapM {A B : Type} (f : A -> result B) (l : list A) : result (list B) :=
  match l with
  | [] => Ok []
  | a :: l' => b <- f a ;;; bs <- rmapM f l' ;;; Ok (b :: bs)
  end.

(** ** Floating point interface *)

Class FloatOps (F : Type) : Type := {
  fzero : F;
  fone : F;
  fadd : F -> F -> F;
  fmul : F -> F -> F;
  isnan : F -> bool;
  (** the literal [0.01] *)
  fcenti : F;
  (** the order numpy sorts by: [<=] on numbers, NaN after every number *)
  fle : F -> F -> bool
}.

(** ** Arrays *)

(** The kind of a dtype, as numpy's casting rules tell kinds apart.  The
    unsigned integers of 64 bits stand apart from the narrower ones:
    with a signed integer they promote to float64, the narrower ones to
    a signed integer. *)
Inductive dkind : Type :=
  | KBool
  | KUInt
  | KUInt64
  | KInt
  | KFloat
  | KComplex.

(** The order in which the same-kind rule compares kinds. *)
Definition kind_rank (k : dkind) : nat :=
  match k with
  | KBool => 0
  | KUInt | KUInt64 => 1
  | KInt => 2
  | KFloat => 3
  | KComplex => 4
  end.

(** The kind of [np.result_type] of two arrays. *)
Definition result_kind (a b : dkind) : dkind :=
  match a, b with
  | KUInt64, KInt | KInt, KUInt64 => KFloat
  | KUInt64, KUInt | KUInt, KUInt64 => KUInt64
  | _, _ => if kind_rank a <=? kind_rank b then b else a
  end.

(** [np.can_cast(from, to, casting='same_kind')] on kinds. *)
Definition can_cast_same_kind (from to : dkind) : bool :=
  kind_rank from <=? kind_rank to.

(** Whether an array of kind [km] can be multiplied in place into one of
    kind [kd]: its kind is not above that of the data, and it does not
    hold 64-bit unsigned integers where the data are signed. *)
Definition kind_fits (km kd : dkind) : bool :=
  (kind_rank km <=? kind_rank kd)
  && negb (match km, kd with KUInt64, KInt => true | _, _ => false end).

Record ndarray (F : Type) : Type := NdArray {
  shape : list nat;
  dtype : dkind;
  buf : list F
}.
Arguments NdArray {F} shape dtype buf.
Arguments shape {F} n.
Arguments dtype {F} n.
Arguments buf {F} n.

(** A 2D array of floats [(nrows, ncols)], row-major. *)
Record array2 (F : Type) : Type := Array2 {
  nrows : nat;
  ncols : nat;
  elems : list F
}.
Arguments Array2 {F} nrows ncols elems.
Arguments nrows {F} a.
Arguments ncols {F} a.
Arguments elems {F} a.

(** The data cube is 3D [(frames, rows, cols)] or 4D
    [(frames, groups, rows, cols)]. *)
Inductive cube_shape : Type :=
  | Shape3 (frames rows cols : nat)
  | Shape4 (frames groups rows cols : nat).

(** [cview] tells whether [reshape] can merge the first two axes of a 4D
    cube in place (it can for a C-contiguous array) and so returns a view;
    it returns a copy otherwise.  The field plays no part for a 3D cube.
    [cwritable] is the array's [flags.writeable]. *)
Record cube (F : Type) : Type := Cube {
  cshape : cube_shape;
  cdtype : dkind;
  cview : bool;
  cwritable : bool;
  cbuf : list F
}.
Arguments Cube {F} cshape cdtype cview cwritable cbuf.
Arguments cshape {F} c.
Arguments cdtype {F} c.
Arguments cview {F} c.
Arguments cwritable {F} c.
Arguments cbuf {F} c.

(** The array [d] with the elements [b] in place of its own. *)
Definition with_buf {F : Type} (d : cube F) (b : list F) : cube F :=
  Cube (cshape d) (cdtype d) (cview d) (cwritable d) b.

(** Whether the 3D array [bin_counts] works on shares its elements with
    the caller's array: a 3D cube is used as it is, a 4D cube through
    [reshape]. *)
Definition shares_buffer {F : Type} (d : cube F) : bool :=
  match cshape d with
  | Shape3 _ _ _ => true
  | Shape4 _ _ _ _ => cview d
  end.

(** Whether the 3D array [bin_counts] works on can be written: the
    caller's array and a view of it can when the caller's array can, a
    copy always. *)
Definition writable3 {F : Type} (d : cube F) : bool :=
  if shares_buffer d then cwritable d else true.

Definition shape_list (s : cube_shape) : list nat :=
  match s with
  | Shape3 f r c => [f; r; c]
  | Shape4 f g r c => [f; g; r; c]
  end.

Definition numel (s : list nat) : nat := foldr Nat.mul 1 s.

(** [data.shape[0]] *)
Definition shape0 (s : cube_shape) : nat :=
  match s with Shape3 f _ _ => f | Shape4 f _ _ _ => f end.

(** [(data.shape[-2], data.shape[-1])] *)
Definition spatial (s : cube_shape) : nat * nat :=
  match s with Shape3 _ r c => (r, c) | Shape4 _ _ r c => (r, c) end.

Definition wf_cube {F : Type} (d : cube F) : Prop :=
  length (cbuf d) = numel (shape_list (cshape d)).

Definition wf_ndarray {F : Type} (a : ndarray F) : Prop :=
  length (buf a) = numel (shape a).

(** A wavelength bin: the index arrays [(xpix, ypix)] used as
    [data[:, xpix, ypix]]. *)
Definition wavebin : Type := list Z * list Z.

(** [data.reshape(s)] of a 4D cube: the same elements under the shape
    [s], in a view of the cube or in a copy, which can be written. *)
Definition reshape {F : Type} (d : cube F) (s : cube_shape) : cube F :=
  Cube s (cdtype d) (cview d) (if cview d then cwritable d else true) (cbuf d).

(** The shape [(frames, rows, cols)] of the 3D view [bin_counts] works on:
    [if data.ndim == 4: data = data.reshape((data.shape[0]*data.shape[1],
    data.shape[2], data.shape[3]))]. *)
Definition view3 (s : cube_shape) : nat * nat * nat :=
  match s with
  | Shape4 f g r c => (f * g, r, c)
  | Shape3 f r c => (f, r, c)
  end.

(** Index arrays of a fancy index broadcast against each other. *)
Definition broadcast_index (xs ys : list Z) : result (list (Z * Z)) :=
  if length xs =? length ys then Ok (zip xs ys)
  else match xs, ys with
       | [x], _ => Ok (map (fun y => (x, y)) ys)
       | _, [y] => Ok (map (fun x => (x, y)) xs)
       | _, _ => Raise IndexError
       end.

(** One index against an axis of length [n]: negative indices count from
    the end, anything else out of range raises. *)
Definition norm_index (n : nat) (i : Z) : result nat :=
  if (0 <=? i)%Z && (i <? Z.of_nat n)%Z then Ok (Z.to_nat i)
  else if (- Z.of_nat n <=? i)%Z && (i <? 0)%Z then Ok (Z.to_nat (i + Z.of_nat n))
  else Raise IndexError.

Definition norm_pixel (r c : nat) (p : Z * Z) : result (nat * nat) :=
  x <- norm_index r (fst p) ;;; y <- norm_index c (snd p) ;;; Ok (x, y).

(** The pixels [(x, y)] a bin selects on an [r] by [c] frame. *)
Definition bin_pixels (r c : nat) (wb : wavebin) : result (list (nat * nat)) :=
  ps <- broadcast_index (fst wb) (snd wb) ;;; rmapM (norm_pixel r c) ps.

Section Binning.
Context {F : Type} `{FloatOps F}.

(** [data[f, x, y]] on a 3D view [(_, r, c)] of buffer [b]. *)
Definition pixel (r c : nat) (b : list F) (f x y : nat) : F :=
  nth (f * (r * c) + (x * c + y)) b fzero.

(** [np.nansum] of a 1D array: NaN replaced by zero, then summed. *)
Definition replace_nan (v : F) : F := if isnan v then fzero else v.

Definition nansum (l : list F) : F :=
  foldl fadd fzero (map replace_nan l).

(** [np.zeros((f, nb), dtype=float)] *)
Definition zeros2 (f nb : nat) : array2 F :=
  Array2 f nb (replicate (f * nb) fzero).

(** [np.ones((r, c))]: an array of floats. *)
Definition ones2 (r c : nat) : ndarray F :=
  NdArray [r; c] KFloat (replicate (r * c) fone).

(** [counts[:, n] = col] on a 2D array with [nb] columns. *)
Definition set_col (nb n : nat) (col : list F) (b : list F) : list F :=
  imap (fun p old => if p mod nb =? n then nth (p / nb) col old else old) b.

(** The elements of [data * pixel_mask[None, :, :]] for the elements [b]
    of a [(_, r, c)] array. *)
Definition mul_mask (r c : nat) (m : list F) (b : list F) : list F :=
  imap (fun p v => fmul v (nth (p mod (r * c)) m fone)) b.

(** [data *= pixel_mask[None, :, :]]: the product is computed in the
    result type of the two arrays and written back into [data].  numpy
    raises ValueError when [data] is read-only, and UFuncTypeError (a
    TypeError) when the product cannot be cast back under the same-kind
    rule, as for an integer cube and a float mask. *)
Definition imul_mask (writable : bool) (kd : dkind) (r c : nat) (m : ndarray F)
    (b : list F) : result (list F) :=
  if negb writable then Raise ValueError
  else if can_cast_same_kind (result_kind kd (dtype m)) kd
  then Ok (mul_mask r c (buf m) b)
  else Raise TypeError.

(** [isinstance(pixel_mask, np.ndarray) and pixel_mask.shape == data.shape[1:]]
    ([None] stands for Python's [None] and for any value that is not an
    array). *)
Definition mask_applies (pixel_mask : option (ndarray F)) (r c : nat) : bool :=
  match pixel_mask with
  | Some m => bool_decide (shape m = [r; c])
  | None => false
  end.

(** [if ...: data *= pixel_mask[None, :, :]] *)
Definition apply_mask (pixel_mask : option (ndarray F)) (writable : bool)
    (kd : dkind) (r c : nat) (b : list F) : result (list F) :=
  match pixel_mask with
  | Some m =>
      if mask_applies pixel_mask r c then imul_mask writable kd r c m b else Ok b
  | None => Ok b
  end.

(** [np.nansum(data[:, xpix, ypix], axis=1)]: one sum per frame. *)
Definition bin_column (f r c : nat) (b : list F) (wb : wavebin) : result (list F) :=
  ps <- bin_pixels r c wb ;;;
  Ok (map (fun fr => nansum (map (fun p => pixel r c b fr (fst p) (snd p)) ps))
          (seq 0 f)).

(** The loop [for n, (xpix, ypix) in enumerate(wavebins)]. *)
Fixpoint fill_counts (f r c : nat) (b : list F) (nb n : nat)
    (wavebins : list wavebin) (counts : list F) : result (list F) :=
  match wavebins with
  | [] => Ok counts
  | wb :: rest =>
      col <- bin_column f r c b wb ;;;
      fill_counts f r c b nb (S n) rest (set_col nb n col counts)
  end.

(** [bin_counts(data, wavebins, pixel_mask)].  The first component is the
    caller's array after the call, the second what the call returns.  The
    multiply writes into the caller's array when the 3D array shares its
    elements with it, and into the copy [reshape] made otherwise. *)
Definition bin_counts (data : cube F) (wavebins : list wavebin)
    (pixel_mask : option (ndarray F)) : cube F * result (array2 F) :=
  let '(f, r, c) := view3 (cshape data) in
  let nb := length wavebins in
  let counts := zeros2 f nb in
  match apply_mask pixel_mask (writable3 data) (cdtype data) r c (cbuf data) with
  | Raise e => (data, Raise e)
  | Ok b =>
      (if shares_buffer data then with_buf data b else data,
       cs <- fill_counts f r c b nb 0 wavebins (elems counts) ;;;
       Ok (Array2 (nrows counts) (ncols counts) cs))
  end.

(** Whether the in-place multiply takes the mask: a mask that is not
    applied always, an applied one when the array can be written and the
    kind of the mask fits the kind of the data. *)
Definition mask_accepted (data : cube F) (pixel_mask : option (ndarray F)) : bool :=
  let '(_, r, c) := view3 (cshape data) in
  match pixel_mask with
  | Some m => if mask_applies pixel_mask r c
              then writable3 data && kind_fits (dtype m) (cdtype data) else true
  | None => true
  end.

(** The elements a 3D array holds after [if ...: data *= pixel_mask] when
    the multiply is taken. *)
Definition masked_buffer (pixel_mask : option (ndarray F)) (r c : nat)
    (b : list F) : list F :=
  match pixel_mask with
  | Some m => if mask_applies pixel_mask r c then mul_mask r c (buf m) b else b
  | None => b
  end.

(** The specification's sum of a bin: the values added up from zero, a
    missing or invalid value (NaN) counting as zero. *)
Fixpoint spec_sum_from (acc : F) (l : list F) : F :=
  match l with
  | [] => acc
  | v :: rest => spec_sum_from (fadd acc (if isnan v then fzero else v)) rest
  end.

Definition spec_nan_safe_sum (l : list F) : F := spec_sum_from fzero l.

(** What the specification has a bin sum: the count at [(fr, x, y)],
    weighted by the mask at [(x, y)] when a mask of the frame's shape is
    supplied. *)
Definition masked_count (data : cube F) (pixel_mask : option (ndarray F))
    (fr x y : nat) : F :=
  let '(_, r, c) := view3 (cshape data) in
  let v := pixel r c (cbuf data) fr x y in
  match pixel_mask with
  | Some m => if bool_decide (shape m = [r; c])
              then fmul v (nth (x * c + y) (buf m) fone) else v
  | None => v
  end.

End Binning.

(** ** Array operations used by [extract] *)

Section Arrays.
Context {F : Type} `{FloatOps F}.

(** [a[i, j]] on a 2D array. *)
Definition at2 (a : array2 F) (i j : nat) : F :=
  nth (i * ncols a + j) (elems a) fzero.

(** The buffer of a 2D array holds [nrows * ncols] elements. *)
Definition wf_array2 (a : array2 F) : Prop :=
  length (elems a) = nrows a * ncols a.

(** [a[:, idx]] on a 2D array. *)
Definition take_cols (idx : list nat) (a : array2 F) : result (array2 F) :=
  if forallb (fun j => j <? ncols a) idx
  then Ok (Array2 (nrows a) (length idx)
             (flat_map (fun i => map (fun j => at2 a i j) idx) (seq 0 (nrows a))))
  else Raise IndexError.

(** [a[n]] on a 2D array. *)
Definition get_row (n : nat) (a : array2 F) : result (list F) :=
  if n <? nrows a
  then Ok (take (ncols a) (drop (n * ncols a) (elems a)))
  else Raise IndexError.

(** [flux * 0.01] *)
Definition scale_centi (a : array2 F) : array2 F :=
  Array2 (nrows a) (ncols a) (map (fun v => fmul v fcenti) (elems a)).

(** The order of two indices of [w] by their values. *)
Definition key_le (w : list F) (i j : nat) : Prop :=
  fle (nth i w fzero) (nth j w fzero) = true.

Global Instance key_le_dec (w : list F) (i j : nat) : Decision (key_le w i j).
Proof. unfold key_le. apply _. Defined.

(** What numpy promises of [wavelength.argsort()]: the indices of [w], each
    once, in ascending order of their values.  The default sort is not
    stable, so the order in which the indices of equal values come out is
    numpy's choice; [extract] takes the function as a parameter. *)
Definition argsort_contract (argsort : list F -> list nat) : Prop :=
  forall w, argsort w ≡ₚ seq 0 (length w) /\ Sorted (key_le w) (argsort w).

(** One function that meets the contract, used to run [extract] on
    concrete inputs (which hold no equal wavelengths). *)
Definition merge_argsort (w : list F) : list nat :=
  merge_sort (key_le w) (seq 0 (length w)).

(** [wavelength[idx]] *)
Definition take_idx (idx : list nat) (w : list F) : list F :=
  map (fun i => nth i w fzero) idx.

(** [np.array([w, f, u])]: the three rows must have one length. *)
Definition spectrum : Type := list F * list F * list F.

Definition mk_spectrum (w f u : list F) : result spectrum :=
  if (length w =? length f) && (length f =? length u)
  then Ok (w, f, u)
  else Raise ValueError.

(** A spectrum that is a [(3, n)] array: its rows have one length. *)
Definition rectangular (s : spectrum) : Prop :=
  length s.1.1 = length s.1.2 /\ length s.1.2 = length s.2.

(** [np.array(rows)] for a list of 1D rows, the first of which is [r0]. *)
Definition stack_rows (r0 : list F) (rest : list (list F)) : result (array2 F) :=
  if forallb (fun r => length r =? length r0) rest
  then Ok (Array2 (S (length rest)) (length r0) (concat (r0 :: rest)))
  else Raise ValueError.

End Arrays.

(** ** [extract] *)

(** The record stored under each key of the result. *)
Record spectra (F : Type) : Type := Spectra {
  r_counts : array2 F;
  r_flux : array2 F;
  r_unc : array2 F;
  r_wavelength : list F;
  r_filter : string;
  r_subarray : string
}.
Arguments Spectra {F} _ _ _ _ _ _.
Arguments r_counts {F} s.
Arguments r_flux {F} s.
Arguments r_unc {F} s.
Arguments r_wavelength {F} s.
Arguments r_filter {F} s.
Arguments r_subarray {F} s.

(** A record whose flux and uncertainty have [f] rows and a column for
    each of its wavelengths. *)
Definition record_shape {F : Type} (f : nat) (rec : spectra F) : Prop :=
  wf_array2 (r_flux rec) /\ nrows (r_flux rec) = f /\
  ncols (r_flux rec) = length (r_wavelength rec) /\
  wf_array2 (r_unc rec) /\ nrows (r_unc rec) = f /\
  ncols (r_unc rec) = length (r_wavelength rec).

(** An order the loop of [extract] can process on [r] by [c] frames: its
    bins hold pixel indices of the frame and it has a bin for each of its
    wavelengths. *)
Definition order_ok {F : Type} (r c : nat)
    (o : list F * list wavebin * ndarray F) : Prop :=
  Forall (fun wb => is_ok (bin_pixels r c wb) = true) o.1.2 /\
  length o.1.1 <= length o.1.2.

(** The caller's array as pass [n] of the per-order loop of [extract]
    finds it: the array the [bin_counts] calls of the passes before have
    left. *)
Definition data_before {F : Type} `{FloatOps F} (data : cube F)
    (orders : list (list F * list wavebin * ndarray F)) (n : nat) : cube F :=
  foldl (fun d o => (bin_counts d o.1.2 (Some o.2)).1) data (take n orders).

(** ['order{}'.format(n+1)] *)
Definition order_name (n : nat) : string := "order" +:+ pretty (n + 1).

Section Extract.
Context {F : Type} `{FloatOps F}.

(** The state of numpy's global random generator, the flux units and
    the forwarded keyword arguments are opaque. *)
Context {R U K : Type}.

(** *** Collaborators *)

(** [hotsoss.locate_trace.trace_wavelengths(order, wavecal_file, npix, subarray)] *)
Variable trace_wavelengths :
  option nat -> option string -> nat -> string -> result (list (list F)).
(** [hotsoss.locate_trace.wavelength_bins(subarray)] *)
Variable wavelength_bins : string -> result (list (list wavebin)).
(** [hotsoss.utils.counts_to_flux(wavelength, counts, filt, subarray, order, units, **kwargs)] *)
Variable counts_to_flux :
  list F -> array2 F -> string -> string -> nat -> U -> K -> result (array2 F).
(** [np.random.normal(loc, scale)] on the generator state *)
Variable random_normal : R -> array2 F -> array2 F -> R * result (array2 F).
(** [specialsoss.utilities.combine_spectra(spec1, spec2)] *)
Variable combine_spectra :
  spectrum (F:=F) -> spectrum (F:=F) -> result (spectrum (F:=F)).
(** [numpy.ndarray.argsort()] on a 1D array *)
Variable argsort : list F -> list nat.

(** *** Program state: the caller's data array, the random generator and
    what was printed. *)
Record state : Type := State {
  st_data : cube F;
  st_rng : R;
  st_out : list (spectrum (F:=F) * spectrum (F:=F))
}.

Definition M (A : Type) : Type := state -> state * result A.

Definition mret {A : Type} (a : A) : M A := fun s => (s, Ok a).

Definition mbind {A B : Type} (m : M A) (k : A -> M B) : M B :=
  fun s => match m s with
           | (s', Ok a) => k a s'
           | (s', Raise e) => (s', Raise e)
           end.

Definition lift {A : Type} (r : result A) : M A := fun s => (s, r).

Notation "x <~ m ;;; k" := (mbind m (fun x => k))
  (at level 20, m at level 100, k at level 200, only parsing).

(** [bin_counts(data, wavebin, mask)] on the shared data array. *)
Definition call_bin_counts (wavebin : list wavebin) (mask : option (ndarray F))
    : M (array2 F) :=
  fun s => let (d, r) := bin_counts (st_data s) wavebin mask in
           (State d (st_rng s) (st_out s), r).

Definition call_random_normal (loc scale : array2 F) : M (array2 F) :=
  fun s => let (g, r) := random_normal (st_rng s) loc scale in
           (State (st_data s) g (st_out s), r).

Definition print (s1 s2 : spectrum (F:=F)) : M unit :=
  fun s => (State (st_data s) (st_rng s) (st_out s ++ [(s1, s2)]), Ok tt).

(** The body of [for n, (wavelength, wavebin, mask) in enumerate(zip(...))]:
    the bound [counts] and the record stored under [order_name n]. *)
Definition extract_order (filt subarray : string) (units : U) (kwargs : K)
    (n : nat) (wavelength : list F) (wavebin : list wavebin) (mask : ndarray F)
    : M (array2 F * spectra F) :=
  counts <~ call_bin_counts wavebin (Some mask) ;;;
  flux <~ lift (counts_to_flux wavelength counts filt subarray (n + 1) units kwargs) ;;;
  unc <~ call_random_normal flux (scale_centi flux) ;;;
  let idx := argsort wavelength in
  let wave := take_idx idx wavelength in
  flux <~ lift (take_cols idx flux) ;;;
  unc <~ lift (take_cols idx unc) ;;;
  counts <~ lift (take_cols idx counts) ;;;
  mret (counts, Spectra counts flux unc wave filt subarray).

(** What one pass of the loop stores: the wavelengths of an order
    sorted through [argsort], and the columns of the flux, uncertainty
    and counts arrays of that order taken through the same indices. *)
Definition order_record (filt subarray : string) (units : U) (kwargs : K)
    (rec : spectra F) : Prop :=
  exists (wavelength : list F) (counts flux unc : array2 F) (order : nat),
    counts_to_flux wavelength counts filt subarray order units kwargs = Ok flux /\
    r_wavelength rec = take_idx (argsort wavelength) wavelength /\
    take_cols (argsort wavelength) flux = Ok (r_flux rec) /\
    take_cols (argsort wavelength) unc = Ok (r_unc rec) /\
    take_cols (argsort wavelength) counts = Ok (r_counts rec).

(** The per-order loop; [counts] is the loop variable that stays bound
    after the loop. *)
Fixpoint extract_orders (filt subarray : string) (units : U) (kwargs : K)
    (n : nat) (orders : list (list F * list wavebin * ndarray F))
    (results : gmap string (spectra F)) (counts : option (array2 F))
    : M (gmap string (spectra F) * option (array2 F)) :=
  match orders with
  | [] => mret (results, counts)
  | (wavelength, wavebin, mask) :: rest =>
      cr <~ extract_order filt subarray units kwargs n wavelength wavebin mask ;;;
      extract_orders filt subarray units kwargs (S n) rest
        (<[order_name n := snd cr]> results) (Some (fst cr))
  end.

(** [results[name]] *)
Definition getitem (results : gmap string (spectra F)) (name : string)
    : result (spectra F) :=
  match results !! name with
  | Some r => Ok r
  | None => Raise KeyError
  end.

(** [np.array([results[name]['wavelength'], results[name]['flux'][n],
    results[name]['unc'][n]])] *)
Definition order_spectrum (results : gmap string (spectra F)) (name : string)
    (n : nat) : result spectrum :=
  o <- getitem results name ;;;
  f <- get_row n (r_flux o) ;;;
  u <- get_row n (r_unc o) ;;;
  mk_spectrum (r_wavelength o) f u.

(** The loop [for n in range(nframes)] that fills [combined]. *)
Fixpoint combine_frames (results : gmap string (spectra F)) (frames : list nat)
    (combined : list spectrum) : M (list spectrum) :=
  match frames with
  | [] => mret combined
  | n :: rest =>
      spec1 <~ lift (order_spectrum results "order1" n) ;;;
      spec2 <~ lift (order_spectrum results "order2" n) ;;;
      _ <~ print spec1 spec2 ;;;
      spec3 <~ lift (combine_spectra spec1 spec2) ;;;
      combine_frames results rest (combined ++ [spec3])
  end.

(** Lines 81-85: stack the combined spectra into the [final] record. *)
Definition final_record (filt subarray : string) (combined : list spectrum)
    (counts : option (array2 F)) : result (spectra F) :=
  match combined with
  | [] => Raise IndexError
  | c0 :: cs =>
      let wave_final := c0.1.1 in
      flux_final <- stack_rows c0.1.2 (map (fun c => c.1.2) cs) ;;;
      unc_final <- stack_rows c0.2 (map (fun c => c.2) cs) ;;;
      match counts with
      | None => Raise NameError
      | Some counts => Ok (Spectra counts flux_final unc_final wave_final filt subarray)
      end
  end.

(** [pixel_masks], with [None] replaced by [np.ones((2, rows, cols))]. *)
Definition default_masks (data : cube F) (pixel_masks : option (list (ndarray F)))
    : list (ndarray F) :=
  match pixel_masks with
  | Some ms => ms
  | None => let (r, c) := spatial (cshape data) in [ones2 r c; ones2 r c]
  end.

Definition extract_body (data : cube F) (filt : string)
    (pixel_masks : option (list (ndarray F))) (subarray : string)
    (units : U) (kwargs : K) : M (gmap string (spectra F)) :=
  let results : gmap string (spectra F) := ∅ in
  wavelengths <~ lift (trace_wavelengths None None 10 "SUBSTRIP256") ;;;
  wavebins <~ lift (wavelength_bins subarray) ;;;
  let nframes := shape0 (cshape data) in
  let pixel_masks := default_masks data pixel_masks in
  rc <~ extract_orders filt subarray units kwargs 0
          (zip (zip wavelengths wavebins) pixel_masks) results None ;;;
  let (results, counts) := rc in
  combined <~ combine_frames results (seq 0 nframes) [] ;;;
  final <~ lift (final_record filt subarray combined counts) ;;;
  mret (<["final" := final]> results).

(** [extract(data, filt, pixel_masks, subarray, units, **kwargs)], run
    with the generator in state [rng]: the final state and the result. *)
Definition extract (data : cube F) (filt : string)
    (pixel_masks : option (list (ndarray F))) (subarray : string)
    (units : U) (kwargs : K) (rng : R) : state * result (gmap string (spectra F)) :=
  extract_body data filt pixel_masks subarray units kwargs (State data rng []).

End Extract.

(** ** An exact instance of the float interface and concrete collaborators

    [xfloat] computes with exact rationals extended by NaN; the
    collaborators below are small stand-ins for the lookups, the flux
    calibration, the random draw and the combiner, used to run [extract]
    on concrete inputs. *)

Inductive xfloat : Type :=
  | XNaN
  | XNum (q : Q).

Definition xadd (a b : xfloat) : xfloat :=
  match a, b with XNum p, XNum q => XNum (p + q) | _, _ => XNaN end.

Definition xmul (a b : xfloat) : xfloat :=
  match a, b with XNum p, XNum q => XNum (p * q) | _, _ => XNaN end.

Definition xisnan (a : xfloat) : bool :=
  match a with XNaN => true | XNum _ => false end.

Definition xle (a b : xfloat) : bool :=
  match a, b with
  | _, XNaN => true
  | XNaN, XNum _ => false
  | XNum p, XNum q => Qle_bool p q
  end.

#[export] Instance xfloat_ops : FloatOps xfloat := {|
  fzero := XNum 0;
  fone := XNum 1;
  fadd := xadd;
  fmul := xmul;
  isnan := xisnan;
  fcenti := XNum (1 # 100);
  fle := xle
|}.

Definition xn (z : Z) : xfloat := XNum (inject_Z z).

Module Example.

(** Two frames of 2 by 2 pixels. *)
Definition data : cube xfloat :=
  Cube (Shape3 2 2 2) KFloat true true (map xn [1; 2; 3; 4; 5; 6; 7; 8]%Z).

(** The same buffer as one frame of two groups. *)
Definition data4 : cube xfloat :=
  Cube (Shape4 1 2 2 2) KFloat true true (map xn [1; 2; 3; 4; 5; 6; 7; 8]%Z).

Definition all_pixels : wavebin := ([0; 0; 1; 1]%Z, [0; 1; 0; 1]%Z).
Definition top_row : wavebin := ([0; 0]%Z, [0; 1]%Z).
Definition last_pixel : wavebin := ([-1]%Z, [-1]%Z).

Definition ones : ndarray xfloat := ones2 2 2.
Definition left_column : ndarray xfloat :=
  NdArray [2; 2] KFloat (map xn [1; 0; 1; 0]%Z).
Definition right_column : ndarray xfloat :=
  NdArray [2; 2] KFloat (map xn [0; 1; 0; 1]%Z).
Definition wrong_shape : ndarray xfloat :=
  NdArray [4] KFloat (map xn [0; 0; 0; 0]%Z).

(** A trace lookup whose wavelengths depend on the subarray. *)
Definition trace_wavelengths (order : option nat) (wavecal_file : option string)
    (npix : nat) (subarray : string) : result (list (list xfloat)) :=
  if String.eqb subarray "SUBSTRIP256"
  then Ok [map xn [3; 1; 2]%Z; map xn [2; 1]%Z]
  else Ok [map xn [30; 10; 20]%Z; map xn [20; 10]%Z].

(** Two orders: three bins for the first, two for the second. *)
Definition wavelength_bins (subarray : string) : result (list (list wavebin)) :=
  Ok [[all_pixels; top_row; last_pixel]; [all_pixels; last_pixel]].

Definition counts_to_flux (wavelength : list xfloat) (counts : array2 xfloat)
    (filt subarray : string) (order : nat) (units kwargs : unit)
    : result (array2 xfloat) :=
  Ok (Array2 (nrows counts) (ncols counts) (map (xmul (xn 2)) (elems counts))).

(** A draw that returns [loc + scale] and steps the generator. *)
Definition random_normal (rng : nat) (loc scale : array2 xfloat)
    : nat * result (array2 xfloat) :=
  (S rng, Ok (Array2 (nrows loc) (ncols loc) (zip_with xadd (elems loc) (elems scale)))).

(** A combiner that joins the two spectra end to end. *)
Definition combine_spectra (s1 s2 : spectrum (F:=xfloat))
    : result (spectrum (F:=xfloat)) :=
  Ok (s1.1.1 ++ s2.1.1, s1.1.2 ++ s2.1.2, s1.2 ++ s2.2).

Definition masks3 : list (ndarray xfloat) := [ones; ones; ones].

Definition run (d : cube xfloat) (pixel_masks : option (list (ndarray xfloat)))
    (subarray : string) :=
  extract trace_wavelengths wavelength_bins counts_to_flux random_normal
    combine_spectra merge_argsort d "CLEAR" pixel_masks subarray tt tt 0.

(** A field of the record stored under [name], when the run returned. *)
Definition field {A : Type} (proj : spectra xfloat -> A) (name : string)
    (r : state (F:=xfloat) (R:=nat) * result (gmap string (spectra xfloat)))
    : option A :=
  match r.2 with
  | Ok results => proj <$> results !! name
  | Raise _ => None
  end.

(** The run on [data] with the default masks, and what it returns. *)
Definition outcome := run data None "SUBSTRIP256".

Definition results : gmap string (spectra xfloat) :=
  match outcome.2 with
  | Ok results => results
  | Raise _ => ∅
  end.

Definition order1 : spectra xfloat :=
  Eval vm_compute in
    match results !! "order1" with
    | Some rec => rec
    | None => Spectra (Array2 0 0 []) (Array2 0 0 []) (Array2 0 0 []) [] "" ""
    end.

(** The run on [data] with one mask for each order. *)
Definition masked := run data (Some [left_column; right_column]) "SUBSTRIP256".

Definition masked_results : gmap string (spectra xfloat) :=
  match masked.2 with
  | Ok results => results
  | Raise _ => ∅
  end.

(** A bin whose column index is past the frame. *)
Definition out_of_range : wavebin := ([0]%Z, [2]%Z).

(** A cube of 2 by 2 pixels without frames. *)
Definition no_frames : cube xfloat := Cube (Shape3 0 2 2) KFloat true true [].

(** The two frames of [data] as an integer cube; and two frames of two
    groups of 1 by 2 pixels cut out of a larger array (every other group,
    say), so that the first two axes cannot be merged in place. *)
Definition int_data : cube xfloat :=
  Cube (Shape3 2 2 2) KInt true true (map xn [1; 2; 3; 4; 5; 6; 7; 8]%Z).

Definition strided4 : cube xfloat :=
  Cube (Shape4 2 2 1 2) KFloat false true (map xn [1; 2; 3; 4; 5; 6; 7; 8]%Z).

Definition one_row_mask : ndarray xfloat := NdArray [1; 2] KFloat (map xn [1; 0]%Z).

(** The two frames of [data] in an array that cannot be written. *)
Definition read_only : cube xfloat :=
  Cube (Shape3 2 2 2) KFloat true false (map xn [1; 2; 3; 4; 5; 6; 7; 8]%Z).

(** A bin lookup that knows one order only. *)
Definition one_order_bins (subarray : string) : result (list (list wavebin)) :=
  Ok [[all_pixels; top_row; last_pixel]].

(** A trace lookup with four wavelengths for the three bins of order 1. *)
Definition four_wavelengths (order : option nat) (wavecal_file : option string)
    (npix : nat) (subarray : string) : result (list (list xfloat)) :=
  Ok [map xn [3; 1; 2; 4]%Z; map xn [2; 1]%Z].

(** Wavelengths in ascending order and an array with a column for each. *)
Definition ascending : list xfloat := map xn [1; 2; 3]%Z.

Definition table : array2 xfloat := Array2 2 3 (map xn [1; 2; 3; 4; 5; 6]%Z).

End Example.

(** A fixed-point instance of the float interface: [CNum z] stands for
    [z / 100], and products are cut to hundredths. *)
Inductive cfloat : Type :=
  | CNaN
  | CNum (z : Z).

Definition cadd (a b : cfloat) : cfloat :=
  match a, b with CNum p, CNum q => CNum (p + q) | _, _ => CNaN end.

Definition cmul (a b : cfloat) : cfloat :=
  match a, b with CNum p, CNum q => CNum (p * q / 100) | _, _ => CNaN end.

Definition cisnan (a : cfloat) : bool :=
  match a with CNaN => true | CNum _ => false end.

Definition cle (a b : cfloat) : bool :=
  match a, b with
  | _, CNaN => true
  | CNaN, CNum _ => false
  | CNum p, CNum q => (p <=? q)%Z
  end.

#[export] Instance cfloat_ops : FloatOps cfloat := {|
  fzero := CNum 0;
  fone := CNum 100;
  fadd := cadd;
  fmul := cmul;
  isnan := cisnan;
  fcenti := CNum 1;
  fle := cle
|}.

Module Fixed.

(** Two frames of 2 by 2 pixels, one of them holding a NaN, and a mask
    that is zero on the top row. *)
Definition data : cube cfloat :=
  Cube (Shape3 2 2 2) KFloat true true
    [CNum 150; CNaN; CNum 300; CNum 400; CNum 500; CNum 600; CNum 700; CNum 800].

Definition bottom_row : ndarray cfloat :=
  NdArray [2; 2] KFloat [CNum 0; CNum 0; CNum 100; CNum 100].

Definition counts : array2 cfloat :=
  Eval vm_compute in
    match (bin_counts data [Example.top_row; Example.all_pixels]
             (Some bottom_row)).2 with
    | Ok c => c
    | Raise _ => Array2 0 0 []
    end.

End Fixed.

(** A computation that leaves a component of the state of [extract] as it
    is, whether it returns or raises. *)
Definition keeps {F R X A : Type} (proj : state (F:=F) (R:=R) -> X)
    (m : M (F:=F) (R:=R) A) : Prop :=
  forall s, proj (m s).1 = proj s.

(** Each value of [w] is below the ones after it, and not the other way
    round. *)
Definition strictly_ascending {F : Type} `{FloatOps F} (w : list F) : Prop :=
  forall i j, i < j -> j < length w ->
    fle (nth i w fzero) (nth j w fzero) = true /\
    fle (nth j w fzero) (nth i w fzero) = false.

(** * Properties

    ** The error monad and pixel indices *)

Lemma rbind_ok {A B} (m : result A) (k : A -> result B) b :
  rbind m k = Ok b -> exists a, m = Ok a /\ k a = Ok b.
Proof. destruct m; simpl; [eauto | discriminate]. Qed.

Lemma is_ok_true {A} (m : result A) : is_ok m = true -> exists a, m = Ok a.
Proof. destruct m; simpl; [eauto | discriminate]. Qed.

Lemma norm_index_lt n i k : norm_index n i = Ok k -> k < n.
Proof.
  unfold norm_index. repeat case_match; intros [= <-]; lia.
Qed.

Lemma norm_pixel_lt r c p x y : norm_pixel r c p = Ok (x, y) -> x < r /\ y < c.
Proof.
  unfold norm_pixel. intros Hp.
  apply rbind_ok in Hp as (x' & Hx & Hp). apply rbind_ok in Hp as (y' & Hy & Hp).
  injection Hp as <- <-. eauto using norm_index_lt.
Qed.

Lemma rmapM_Forall {A B} (f : A -> result B) (P : B -> Prop) l bs :
  (forall a b, f a = Ok b -> P b) -> rmapM f l = Ok bs -> Forall P bs.
Proof.
  intros Hf. revert bs. induction l as [|a l IH]; simpl; intros bs Hbs.
  - injection Hbs as <-. constructor.
  - apply rbind_ok in Hbs as (b & Hb & Hbs). apply rbind_ok in Hbs as (bs' & Hbs' & Hbs).
    injection Hbs as <-. constructor; eauto.
Qed.

Lemma bin_pixels_lt r c wb ps :
  bin_pixels r c wb = Ok ps -> Forall (fun p => p.1 < r /\ p.2 < c) ps.
Proof.
  unfold bin_pixels. intros Hp. apply rbind_ok in Hp as (zs & _ & Hp).
  eapply rmapM_Forall; [|exact Hp]. intros a [x y]. apply norm_pixel_lt.
Qed.

Section BinningFacts.
Context {F : Type} `{FloatOps F}.

Lemma set_col_length nb n col (b : list F) : length (set_col nb n col b) = length b.
Proof. unfold set_col. by rewrite length_imap. Qed.

Lemma set_col_lookup nb n col (b : list F) p :
  set_col nb n col b !! p =
    (fun old => if p mod nb =? n then nth (p / nb) col old else old) <$> b !! p.
Proof. unfold set_col. by rewrite list_lookup_imap. Qed.

Lemma flat_index_mod i nb j : j < nb -> (i * nb + j) mod nb = j.
Proof.
  intros Hj. rewrite Nat.add_comm, Nat.Div0.mod_add. by apply Nat.mod_small.
Qed.

Lemma flat_index_div i nb j : j < nb -> (i * nb + j) / nb = i.
Proof.
  intros Hj. rewrite Nat.add_comm, Nat.div_add by lia.
  rewrite Nat.div_small by done. done.
Qed.

Lemma fill_counts_length f r c b nb n wbs (counts cs : list F) :
  fill_counts f r c b nb n wbs counts = Ok cs -> length cs = length counts.
Proof.
  revert n counts. induction wbs as [|wb wbs IH]; simpl; intros n counts Hcs.
  - by injection Hcs as <-.
  - apply rbind_ok in Hcs as (col & _ & Hcs).
    apply IH in Hcs. by rewrite set_col_length in Hcs.
Qed.

(** Columns outside the bins still to be processed keep their value. *)
Lemma fill_counts_other f r c b nb n wbs (counts cs : list F) i j :
  fill_counts f r c b nb n wbs counts = Ok cs ->
  j < nb -> j < n ->
  cs !! (i * nb + j) = counts !! (i * nb + j).
Proof.
  revert n counts. induction wbs as [|wb wbs IH]; simpl; intros n counts Hcs Hj Hn.
  - by injection Hcs as <-.
  - apply rbind_ok in Hcs as (col & _ & Hcs).
    rewrite (IH _ _ Hcs) by lia.
    rewrite set_col_lookup, flat_index_mod by done.
    destruct (Nat.eqb_spec j n); [lia|].
    by destruct (counts !! _).
Qed.

(** Column [n + k] receives the sums of the [k]-th remaining bin. *)
Lemma fill_counts_column f r c b nb n wbs (counts cs : list F) i k wb col v :
  fill_counts f r c b nb n wbs counts = Ok cs ->
  wbs !! k = Some wb -> bin_column f r c b wb = Ok col ->
  n + k < nb -> counts !! (i * nb + (n + k)) = Some v ->
  cs !! (i * nb + (n + k)) = Some (nth i col v).
Proof.
  revert n k counts. induction wbs as [|wb' wbs IH]; simpl; intros n k counts Hcs Hk Hcol Hlt Hv.
  - done.
  - apply rbind_ok in Hcs as (col' & Hcol' & Hcs). destruct k as [|k]; simpl in Hk.
    + injection Hk as ->. rewrite Hcol in Hcol'. injection Hcol' as <-.
      rewrite Nat.add_0_r in *.
      rewrite (fill_counts_other _ _ _ _ _ _ _ _ _ _ _ Hcs) by lia.
      rewrite set_col_lookup, Hv. simpl.
      rewrite flat_index_mod, flat_index_div by lia.
      by rewrite Nat.eqb_refl.
    + replace (n + S k) with (S n + k) in * by lia.
      apply (IH _ _ _ Hcs Hk Hcol Hlt).
      rewrite set_col_lookup, Hv. simpl.
      rewrite flat_index_mod by lia.
      destruct (_ =? n) eqn:E; [|done]. apply Nat.eqb_eq in E. lia.
Qed.

Lemma fill_counts_ok f r c b nb n wbs (counts : list F) :
  Forall (fun wb => is_ok (bin_pixels r c wb) = true) wbs ->
  exists cs, fill_counts f r c b nb n wbs counts = Ok cs.
Proof.
  intros Hwbs. revert n counts.
  induction Hwbs as [|wb wbs Hwb _ IH]; simpl; intros n counts; [eauto|].
  apply is_ok_true in Hwb as (ps & Hps).
  unfold bin_column at 1. rewrite Hps. simpl. apply IH.
Qed.

Lemma mul_mask_nth r c m (b : list F) p d :
  p < length b ->
  nth p (mul_mask r c m b) d = fmul (nth p b d) (nth (p mod (r * c)) m fone).
Proof.
  intros Hp. unfold mul_mask.
  assert (Hi : imap (fun p v => fmul v (nth (p mod (r * c)) m fone)) b !! p
               = Some (fmul (nth p b d) (nth (p mod (r * c)) m fone))).
  { rewrite list_lookup_imap.
    destruct (lookup_lt_is_Some_2 b p Hp) as [v Hv]. rewrite Hv. simpl.
    by rewrite (nth_lookup_Some _ _ d _ Hv). }
  by rewrite (nth_lookup_Some _ _ d _ Hi).
Qed.

Lemma fill_counts_is_ok f r c (b : list F) nb n wbs counts :
  is_ok (fill_counts f r c b nb n wbs counts)
  = forallb (fun wb => is_ok (bin_pixels r c wb)) wbs.
Proof.
  revert n counts. induction wbs as [|wb wbs IH]; intros n counts; simpl; [done|].
  unfold bin_column. destruct (bin_pixels r c wb) as [ps|e]; simpl; [apply IH|done].
Qed.

Lemma fill_counts_bins f r c (b : list F) nb n wbs counts cs k wb :
  fill_counts f r c b nb n wbs counts = Ok cs -> wbs !! k = Some wb ->
  exists ps, bin_pixels r c wb = Ok ps.
Proof.
  intros Hcs Hk.
  pose proof (fill_counts_is_ok f r c b nb n wbs counts) as Hok.
  rewrite Hcs in Hok. simpl in Hok. symmetry in Hok.
  rewrite forallb_forall in Hok.
  apply is_ok_true, Hok, list_elem_of_In. by eapply list_elem_of_lookup_2.
Qed.

(** [np.nansum] computes the specification's sum. *)
Lemma nansum_spec (l : list F) : nansum l = spec_nan_safe_sum l.
Proof.
  unfold nansum, spec_nan_safe_sum.
  assert (Hacc : forall acc, foldl fadd acc (map replace_nan l) = spec_sum_from acc l);
    [|apply Hacc].
  induction l as [|v l IH]; intros acc; simpl; [done|]. apply IH.
Qed.
End BinningFacts.

Lemma cast_back_rank (kd km : dkind) :
  can_cast_same_kind (result_kind kd km) kd = kind_fits km kd.
Proof. by destruct kd, km. Qed.

Section BinCounts.
Context {F : Type} `{FloatOps F}.

Lemma view3_numel (s : cube_shape) f r c :
  view3 s = (f, r, c) -> numel (shape_list s) = f * (r * c).
Proof.
  destruct s; simpl; intros [= <- <- <-]; unfold numel; simpl; lia.
Qed.

Lemma pixel_position f r c fr x y :
  fr < f -> x < r -> y < c ->
  fr * (r * c) + (x * c + y) < f * (r * c) /\ x * c + y < r * c.
Proof.
  intros Hfr Hx Hy.
  assert (Hxy : x * c + y < r * c).
  { apply Nat.lt_le_trans with (S x * c); [simpl; lia|].
    apply Nat.mul_le_mono_r. lia. }
  split; [|done].
  apply Nat.lt_le_trans with (S fr * (r * c)); [simpl; lia|].
  apply Nat.mul_le_mono_r. lia.
Qed.

Lemma with_buf_same (data : cube F) : with_buf data (cbuf data) = data.
Proof. by destruct data. Qed.

(** The three ways [if ...: data *= pixel_mask] can go. *)
Lemma apply_mask_ok pixel_mask w kd r c (b b' : list F) :
  apply_mask pixel_mask w kd r c b = Ok b' -> b' = masked_buffer pixel_mask r c b.
Proof.
  unfold apply_mask, masked_buffer, imul_mask. destruct pixel_mask as [m|]; [|congruence].
  repeat case_match; congruence.
Qed.

Lemma apply_mask_raise pixel_mask w kd r c (b : list F) e :
  apply_mask pixel_mask w kd r c b = Raise e ->
  e = if w then TypeError else ValueError.
Proof.
  unfold apply_mask, imul_mask. destruct pixel_mask as [m|]; [|congruence].
  destruct w; simpl; repeat case_match; congruence.
Qed.

Lemma apply_mask_is_ok (data : cube F) pixel_mask f r c :
  view3 (cshape data) = (f, r, c) ->
  is_ok (apply_mask pixel_mask (writable3 data) (cdtype data) r c (cbuf data))
  = mask_accepted data pixel_mask.
Proof.
  intros Hv. unfold apply_mask, mask_accepted, imul_mask. rewrite Hv.
  destruct pixel_mask as [m|]; [|done].
  destruct (mask_applies (Some m) r c); [|done].
  rewrite cast_back_rank. by destruct (writable3 data), (kind_fits _ _).
Qed.

(** A float cube that can be written takes every mask of real numbers. *)
Lemma mask_accepted_float (data : cube F) pixel_mask :
  cdtype data = KFloat -> writable3 data = true ->
  (forall m, pixel_mask = Some m -> dtype m <> KComplex) ->
  mask_accepted data pixel_mask = true.
Proof.
  intros Hk Hw Hm. unfold mask_accepted.
  destruct (view3 (cshape data)) as [[f r] c].
  destruct pixel_mask as [m|]; [|done].
  destruct (mask_applies (Some m) r c); [|done].
  rewrite Hk, Hw. specialize (Hm m eq_refl). by destruct (dtype m).
Qed.

Lemma apply_mask_accepted (data : cube F) pixel_mask f r c :
  view3 (cshape data) = (f, r, c) ->
  mask_accepted data pixel_mask = true ->
  apply_mask pixel_mask (writable3 data) (cdtype data) r c (cbuf data)
  = Ok (masked_buffer pixel_mask r c (cbuf data)).
Proof.
  intros Hv Hacc. rewrite <- (apply_mask_is_ok data pixel_mask f r c Hv) in Hacc.
  destruct (apply_mask _ _ _ _ _ _) as [b|e] eqn:Hb; [|done].
  by rewrite (apply_mask_ok _ _ _ _ _ _ _ Hb).
Qed.

Lemma bin_counts_unfold (data : cube F) wavebins pixel_mask f r c :
  view3 (cshape data) = (f, r, c) ->
  bin_counts data wavebins pixel_mask
  = match apply_mask pixel_mask (writable3 data) (cdtype data) r c (cbuf data) with
    | Raise e => (data, Raise e)
    | Ok b =>
        (if shares_buffer data then with_buf data b else data,
         cs <- fill_counts f r c b (length wavebins) 0 wavebins
                 (replicate (f * length wavebins) fzero) ;;;
         Ok (Array2 f (length wavebins) cs))
    end.
Proof. intros Hv. unfold bin_counts. by rewrite Hv. Qed.

(** The call changes neither the shape nor the dtype of the caller's
    array, nor the number of its elements. *)
Lemma bin_counts_frame (data : cube F) wavebins pixel_mask :
  cshape (bin_counts data wavebins pixel_mask).1 = cshape data /\
  cdtype (bin_counts data wavebins pixel_mask).1 = cdtype data /\
  cview (bin_counts data wavebins pixel_mask).1 = cview data /\
  cwritable (bin_counts data wavebins pixel_mask).1 = cwritable data /\
  length (cbuf (bin_counts data wavebins pixel_mask).1) = length (cbuf data).
Proof.
  destruct (view3 (cshape data)) as [[f r] c] eqn:Hv.
  rewrite (bin_counts_unfold data wavebins pixel_mask f r c Hv).
  destruct (apply_mask _ _ _ _ _ _) as [b|e] eqn:Hb; [|done].
  apply apply_mask_ok in Hb. simpl. destruct (shares_buffer data); [|done].
  simpl. repeat split. rewrite Hb. unfold masked_buffer, mul_mask.
  destruct pixel_mask as [m|]; [|done]. case_match; [|done]. by rewrite length_imap.
Qed.

Lemma mask_accepted_frame (d d' : cube F) pixel_mask :
  cshape d' = cshape d -> cdtype d' = cdtype d ->
  cview d' = cview d -> cwritable d' = cwritable d ->
  mask_accepted d' pixel_mask = mask_accepted d pixel_mask.
Proof.
  intros Hs Hk Hv Hw. unfold mask_accepted, writable3, shares_buffer.
  by rewrite Hs, Hk, Hv, Hw.
Qed.

Lemma masked_pixel (data : cube F) pixel_mask f r c fr x y :
  wf_cube data -> view3 (cshape data) = (f, r, c) ->
  fr < f -> x < r -> y < c ->
  pixel r c (masked_buffer pixel_mask r c (cbuf data)) fr x y
  = masked_count data pixel_mask fr x y.
Proof.
  intros Hwf Hv Hfr Hx Hy. unfold masked_count, masked_buffer, mask_applies.
  rewrite Hv. destruct pixel_mask as [m|]; [|done].
  case_bool_decide; [|done]. unfold pixel.
  destruct (pixel_position f r c fr x y) as [Hp Hq]; [done..|].
  rewrite mul_mask_nth.
  - by rewrite flat_index_mod.
  - unfold wf_cube in Hwf. rewrite Hwf, (view3_numel _ _ _ _ Hv). done.
Qed.

(** The array a returning call returns, entry by entry. *)
Lemma bin_counts_entries (data : cube F) wavebins pixel_mask f r c counts :
  wf_cube data -> view3 (cshape data) = (f, r, c) ->
  (bin_counts data wavebins pixel_mask).2 = Ok counts ->
  nrows counts = f /\ ncols counts = length wavebins /\
  length (elems counts) = f * length wavebins /\
  forall fr n wb,
    fr < f -> wavebins !! n = Some wb ->
    exists ps,
      bin_pixels r c wb = Ok ps /\
      elems counts !! (fr * length wavebins + n)
      = Some (nansum (map (fun p => masked_count data pixel_mask fr p.1 p.2) ps)).
Proof.
  intros Hwf Hv Hrun. rewrite (bin_counts_unfold data wavebins pixel_mask f r c Hv) in Hrun.
  destruct (apply_mask _ _ _ _ _ _) as [b|e] eqn:Hb; [|done].
  apply apply_mask_ok in Hb. simpl in Hrun.
  apply rbind_ok in Hrun as (cs & Hcs & [= <-]). simpl.
  set (nb := length wavebins) in *.
  pose proof (fill_counts_length _ _ _ _ _ _ _ _ _ Hcs) as Hlen.
  rewrite length_replicate in Hlen.
  repeat split; [done|].
  intros fr n wb Hfr Hn.
  destruct (fill_counts_bins _ _ _ _ _ _ _ _ _ _ _ Hcs Hn) as [ps Hps].
  exists ps. split; [done|].
  assert (Hnb : n < nb) by (eapply lookup_lt_Some; exact Hn).
  assert (Hcol : bin_column f r c b wb = Ok
            (map (fun fr => nansum (map (fun p => pixel r c b fr p.1 p.2) ps)) (seq 0 f))).
  { unfold bin_column. by rewrite Hps. }
  pose proof (fill_counts_column f r c b nb 0 wavebins _ cs fr n wb _ fzero Hcs Hn Hcol)
    as Hentry.
  simpl in Hentry. rewrite Hentry; [|done|].
  - f_equal.
    rewrite (nth_lookup_Some _ _ _ (nansum (map (fun p => pixel r c b fr p.1 p.2) ps))).
    + f_equal. apply map_ext_in. intros [x y] Hin. simpl.
      apply bin_pixels_lt in Hps. rewrite Forall_forall in Hps.
      apply list_elem_of_In, Hps in Hin as [Hx Hy].
      rewrite Hb. by apply (masked_pixel data pixel_mask f).
    + rewrite list_lookup_fmap, lookup_seq_lt by done. done.
  - apply lookup_replicate_2. nia.
Qed.

Lemma bin_counts_is_ok (data : cube F) wavebins pixel_mask f r c :
  view3 (cshape data) = (f, r, c) ->
  is_ok (bin_counts data wavebins pixel_mask).2
  = mask_accepted data pixel_mask
    && forallb (fun wb => is_ok (bin_pixels r c wb)) wavebins.
Proof.
  intros Hv. rewrite (bin_counts_unfold data wavebins pixel_mask f r c Hv).
  rewrite <- (apply_mask_is_ok data pixel_mask f r c Hv).
  destruct (apply_mask _ _ _ _ _ _) as [b|e]; [|done]. simpl.
  rewrite <- (fill_counts_is_ok f r c b (length wavebins) 0 wavebins
                (replicate (f * length wavebins) fzero)).
  by destruct (fill_counts _ _ _ _ _ _ _ _).
Qed.


(** C4: a 4D cube (F, G, R, C) and the same cube reshaped to
    (F*G, R, C) are binned to the same counts. *)
Theorem bin_counts_reshape (fr g r c : nat) (k : dkind) (v w : bool) (b : list F)
    (wavebins : list wavebin) (pixel_mask : option (ndarray F)) :
  let data := Cube (Shape4 fr g r c) k v w b in
  (bin_counts data wavebins pixel_mask).2
  = (bin_counts (reshape data (Shape3 (fr * g) r c)) wavebins pixel_mask).2.
Proof.
  simpl. unfold bin_counts, reshape, writable3, shares_buffer. simpl.
  by destruct (apply_mask _ _ _ _ _ _).
Qed.

(** C6: a mask whose shape differs from the spatial shape of the data is
    ignored: the call returns what it returns without a mask (and leaves
    the data as they are). *)
Theorem bin_counts_mask_mismatch (data : cube F) (wavebins : list wavebin)
    (m : ndarray F) :
  shape m <> [(spatial (cshape data)).1; (spatial (cshape data)).2] ->
  bin_counts data wavebins (Some m) = bin_counts data wavebins None
  /\ (bin_counts data wavebins (Some m)).1 = data.
Proof.
  intros Hm. unfold bin_counts, apply_mask, mask_applies, shares_buffer, with_buf.
  destruct data as [[f r c|f g r c] k v b]; simpl in *;
    rewrite bool_decide_eq_false_2 by done; simpl; by destruct v.
Qed.

Lemma mul_ones r c (m b : list F) :
  (forall x, fmul x fone = x) -> Forall (fun w => w = fone) m ->
  mul_mask r c m b = b.
Proof.
  intros Hone Hm. unfold mul_mask.
  apply list_eq. intros p. rewrite list_lookup_imap.
  destruct (b !! p) as [v|]; [|done]. simpl. f_equal.
  destruct (nth_lookup_or_length m (p mod (r * c)) fone) as [Hl|Hl].
  - rewrite Forall_forall in Hm. apply list_elem_of_lookup_2, Hm in Hl.
    rewrite Hl. apply Hone.
  - rewrite nth_overflow by done. apply Hone.
Qed.

Lemma masked_buffer_ones (m : ndarray F) r c (b : list F) :
  (forall x, fmul x fone = x) -> Forall (fun w => w = fone) (buf m) ->
  masked_buffer (Some m) r c b = b.
Proof.
  intros Hone Hm. unfold masked_buffer.
  destruct (mask_applies (Some m) r c); [by apply mul_ones|done].
Qed.

(** X16: where the multiply takes the mask (a float cube that can be
    written takes every mask of real numbers), an all-ones mask of the
    frame's shape is an identity: the call returns what it returns
    without a mask and leaves the data as they are. *)
Theorem bin_counts_ones_mask (data : cube F) (wavebins : list wavebin)
    (m : ndarray F) :
  (forall x : F, fmul x fone = x) ->
  shape m = [(spatial (cshape data)).1; (spatial (cshape data)).2] ->
  Forall (fun w => w = fone) (buf m) ->
  mask_accepted data (Some m) = true ->
  bin_counts data wavebins (Some m) = bin_counts data wavebins None.
Proof.
  intros Hone Hm Hones Hacc.
  destruct (view3 (cshape data)) as [[f r] c] eqn:Hv.
  rewrite !(bin_counts_unfold data wavebins _ f r c Hv).
  rewrite (apply_mask_accepted data (Some m) f r c Hv Hacc).
  by rewrite masked_buffer_ones.
Qed.
End BinCounts.
(** ** Facts about the array operations *)

Section ArrayFacts.
Context {F : Type} `{FloatOps F}.

(** [merge_argsort] meets numpy's contract when the order is total. *)
Lemma merge_argsort_contract :
  (forall x y : F, fle x y = true \/ fle y x = true) ->
  argsort_contract merge_argsort.
Proof.
  intros Htot w.
  assert (Total (key_le w)) by (intros i j; apply Htot).
  split; [apply merge_sort_Permutation|apply (Sorted_merge_sort (key_le w))].
Qed.

Section Contract.
Variable argsort : list F -> list nat.
Hypothesis argsort_meets : argsort_contract argsort.

Lemma argsort_perm (w : list F) : argsort w ≡ₚ seq 0 (length w).
Proof. apply argsort_meets. Qed.

Lemma argsort_length (w : list F) : length (argsort w) = length w.
Proof. by rewrite argsort_perm, length_seq. Qed.

Lemma argsort_sorted (w : list F) :
  Sorted (fun a b => fle a b = true) (take_idx (argsort w) w).
Proof.
  unfold take_idx.
  apply (Sorted_fmap (fun i => nth i w fzero) (key_le w) (fun a b => fle a b = true)).
  - intros i j Hij. exact Hij.
  - apply argsort_meets.
Qed.

Lemma argsort_bound (w : list F) n :
  length w <= n -> Forall (fun j => j < n) (argsort w).
Proof.
  intros Hn. apply Forall_forall. intros j Hj.
  rewrite (argsort_perm w) in Hj. apply elem_of_seq in Hj. lia.
Qed.
End Contract.

Lemma take_cols_shape idx (a a' : array2 F) :
  take_cols idx a = Ok a' -> nrows a' = nrows a /\ ncols a' = length idx.
Proof. unfold take_cols. case_match; [|done]. by intros [= <-]. Qed.

Lemma stack_rows_shape (r0 : list F) rest a :
  stack_rows r0 rest = Ok a ->
  nrows a = S (length rest) /\ ncols a = length r0 /\
  elems a = concat (r0 :: rest) /\ Forall (fun r => length r = length r0) rest.
Proof.
  unfold stack_rows. destruct (forallb _ rest) eqn:Hall; [|done].
  intros [= <-]. repeat split.
  apply Forall_forall. intros r Hr.
  rewrite forallb_forall in Hall. apply list_elem_of_In, Hall in Hr.
  by apply Nat.eqb_eq.
Qed.

Lemma flat_map_rows_lookup (g : nat -> list F) m n s i j :
  (forall r, length (g r) = m) -> i < n -> j < m ->
  flat_map g (seq s n) !! (i * m + j) = g (s + i) !! j.
Proof.
  intros Hg. revert s i. induction n as [|n IH]; intros s i Hi Hj; [lia|].
  simpl. destruct i as [|i].
  - rewrite lookup_app_l by (rewrite Hg; lia). by rewrite Nat.add_0_r.
  - rewrite lookup_app_r by (rewrite Hg; simpl; lia).
    rewrite Hg. replace (S i * m + j - m) with (i * m + j) by (simpl; lia).
    rewrite IH by lia. f_equal. f_equal. lia.
Qed.

(** [a[:, idx][i, j] = a[i, idx[j]]] *)
Lemma take_cols_at2 idx (a a' : array2 F) i j k :
  take_cols idx a = Ok a' -> i < nrows a -> idx !! j = Some k ->
  at2 a' i j = at2 a i k.
Proof.
  unfold take_cols. case_match; [|done]. intros [= <-] Hi Hj.
  unfold at2 at 1. simpl.
  apply nth_lookup_Some.
  rewrite (flat_map_rows_lookup _ (length idx)).
  - by rewrite list_lookup_fmap, Hj.
  - intros r. by rewrite length_map.
  - done.
  - by eapply lookup_lt_Some.
Qed.

Lemma take_idx_nth idx (w : list F) j k :
  idx !! j = Some k -> nth j (take_idx idx w) fzero = nth k w fzero.
Proof.
  intros Hj. unfold take_idx. apply nth_lookup_Some.
  by rewrite list_lookup_fmap, Hj.
Qed.
Lemma flat_map_rows_length (g : nat -> list F) m n s :
  (forall r, length (g r) = m) -> length (flat_map g (seq s n)) = n * m.
Proof.
  intros Hg. revert s. induction n as [|n IH]; intros s; simpl; [done|].
  by rewrite length_app, Hg, IH.
Qed.

Lemma take_cols_returns idx (a : array2 F) :
  Forall (fun j => j < ncols a) idx ->
  exists a', take_cols idx a = Ok a' /\ nrows a' = nrows a /\
             ncols a' = length idx /\ wf_array2 a'.
Proof.
  intros Hidx. unfold take_cols.
  assert (forallb (fun j => j <? ncols a) idx = true) as ->.
  { apply forallb_forall. intros j Hj. apply Nat.ltb_lt.
    rewrite Forall_forall in Hidx. by apply Hidx, list_elem_of_In. }
  eexists. split; [done|]. repeat split. unfold wf_array2. simpl.
  apply flat_map_rows_length. intros r. by rewrite length_map.
Qed.

Lemma get_row_returns n (a : array2 F) :
  wf_array2 a -> n < nrows a ->
  exists row, get_row n a = Ok row /\ length row = ncols a.
Proof.
  intros Hwf Hn. unfold get_row.
  destruct (Nat.ltb_spec n (nrows a)); [|lia].
  eexists. split; [done|].
  rewrite length_take, length_drop, Hwf. nia.
Qed.
End ArrayFacts.

Lemma order_name_final n : order_name n <> "final".
Proof. unfold order_name. simpl. discriminate. Qed.

Lemma zip_app_longer {A B} (l : list A) (k extra : list B) :
  length l <= length k -> zip l (k ++ extra) = zip l k.
Proof.
  revert k. induction l as [|a l IH]; intros [|b k] Hlen; simpl in *; try done; try lia.
  f_equal. apply IH. lia.
Qed.

Lemma order_name_inj n m : order_name n = order_name m -> n = m.
Proof.
  unfold order_name. intros Hnm.
  apply (inj (String.app "order")), (inj (pretty (A:=nat))) in Hnm. lia.
Qed.

(** ** Facts about [extract] *)

Section ExtractFacts.
Context {F : Type} `{FloatOps F} {R U K : Type}.
Variable trace_wavelengths :
  option nat -> option string -> nat -> string -> result (list (list F)).
Variable wavelength_bins : string -> result (list (list wavebin)).
Variable counts_to_flux :
  list F -> array2 F -> string -> string -> nat -> U -> K -> result (array2 F).
Variable random_normal : R -> array2 F -> array2 F -> R * result (array2 F).
Variable combine_spectra :
  spectrum (F:=F) -> spectrum (F:=F) -> result (spectrum (F:=F)).
Variable argsort : list F -> list nat.

Abbreviation state := (state (F:=F) (R:=R)).
Abbreviation M := (M (F:=F) (R:=R)).

Lemma mbind_ok {A B : Type} (m : M A) (k : A -> M B) (s s' : state) (b : B) :
  mbind m k s = (s', Ok b) ->
  exists s1 a, m s = (s1, Ok a) /\ k a s1 = (s', Ok b).
Proof.
  unfold mbind. destruct (m s) as [s1 [a|e]]; [eauto | discriminate].
Qed.

Lemma lift_ok {A : Type} (r : result A) (s s' : state) (a : A) :
  lift r s = (s', Ok a) -> r = Ok a /\ s' = s.
Proof. unfold lift. by intros [= -> ->]. Qed.

Lemma extract_order_ok filt subarray units kwargs n wavelength wavebin mask
    (s s' : state) cr :
  extract_order counts_to_flux random_normal argsort filt subarray units kwargs n
    wavelength wavebin mask s = (s', Ok cr) ->
  cr.1 = r_counts cr.2 /\
  order_record counts_to_flux argsort filt subarray units kwargs cr.2 /\
  exists counts,
    bin_counts (st_data s) wavebin (Some mask) = (st_data s', Ok counts) /\
    take_cols (argsort wavelength) counts = Ok cr.1.
Proof.
  unfold extract_order. intros Hrun.
  apply mbind_ok in Hrun as (s1 & counts & Hcounts & Hrun).
  apply mbind_ok in Hrun as (s2 & flux & Hflux & Hrun).
  apply mbind_ok in Hrun as (s3 & unc & Hunc & Hrun).
  apply mbind_ok in Hrun as (s4 & flux' & Hflux' & Hrun).
  apply mbind_ok in Hrun as (s5 & unc' & Hunc' & Hrun).
  apply mbind_ok in Hrun as (s6 & counts' & Hcounts' & Hrun).
  apply lift_ok in Hflux as [Hflux ->], Hflux' as [Hflux' ->],
    Hunc' as [Hunc' ->], Hcounts' as [Hcounts' ->].
  unfold mret in Hrun. injection Hrun as <- <-.
  unfold call_bin_counts in Hcounts.
  destruct (bin_counts (st_data s) wavebin (Some mask)) as [d rc] eqn:Hbc.
  injection Hcounts as <- ->.
  unfold call_random_normal in Hunc.
  destruct (random_normal _ flux (scale_centi flux)) as [g ru].
  injection Hunc as <- ->. simpl.
  split; [done|]. split; [|by exists counts].
  exists wavelength, counts, flux, unc, (n + 1). done.
Qed.

(** After a loop of at least one pass, [counts] is the counts array of
    the record stored last. *)
Lemma extract_orders_last filt subarray units kwargs n orders results counts
    (s s' : state) results' counts' k :
  extract_orders counts_to_flux random_normal argsort filt subarray units kwargs n
    orders results counts s = (s', Ok (results', counts')) ->
  length orders = S k ->
  exists rec, results' !! order_name (n + k) = Some rec /\
              counts' = Some (r_counts rec).
Proof.
  revert n k results counts s.
  induction orders as [|[[w wb] m] orders IH]; intros n k results counts s Hrun Hlen;
    [done|].
  simpl in Hrun. apply mbind_ok in Hrun as (s1 & cr & Hcr & Hrun).
  destruct orders as [|o orders].
  - simpl in Hrun. unfold mret in Hrun. injection Hrun as <- <- <-.
    injection Hlen as <-. rewrite Nat.add_0_r.
    exists cr.2. rewrite lookup_insert_eq. split; [done|].
    apply extract_order_ok in Hcr as (-> & _). done.
  - destruct k as [|k]; [done|].
    assert (Hlen' : length (o :: orders) = S k) by (simpl in *; lia).
    destruct (IH (S n) k _ _ _ Hrun Hlen') as (rec & Hrec & Hc).
    exists rec. split; [|done].
    by replace (n + S k) with (S n + k) by lia.
Qed.

Lemma combine_frames_ok results frames acc (s s' : state) combined :
  combine_frames combine_spectra results frames acc s = (s', Ok combined) ->
  exists new,
    combined = acc ++ new /\
    Forall2 (fun n spec3 => exists spec1 spec2,
               order_spectrum results "order1" n = Ok spec1 /\
               order_spectrum results "order2" n = Ok spec2 /\
               combine_spectra spec1 spec2 = Ok spec3) frames new.
Proof.
  revert acc s. induction frames as [|n frames IH]; simpl; intros acc s Hrun.
  - unfold mret in Hrun. injection Hrun as <- <-.
    exists []. by rewrite app_nil_r.
  - apply mbind_ok in Hrun as (s1 & spec1 & Hspec1 & Hrun).
    apply mbind_ok in Hrun as (s2 & spec2 & Hspec2 & Hrun).
    apply mbind_ok in Hrun as (s3 & [] & _ & Hrun).
    apply mbind_ok in Hrun as (s4 & spec3 & Hspec3 & Hrun).
    apply lift_ok in Hspec1 as [Hspec1 _], Hspec2 as [Hspec2 _], Hspec3 as [Hspec3 _].
    apply IH in Hrun as (new & -> & Hnew).
    exists (spec3 :: new). rewrite <- app_assoc. split; [done|].
    constructor; eauto.
Qed.

Lemma final_record_ok filt subarray (combined : list spectrum)
    (counts : option (array2 F)) (fin : spectra F) :
  final_record filt subarray combined counts = Ok fin ->
  exists c0 cs,
    combined = c0 :: cs /\
    counts = Some (r_counts fin) /\
    r_wavelength fin = c0.1.1 /\
    stack_rows c0.1.2 (map (fun c => c.1.2) cs) = Ok (r_flux fin) /\
    stack_rows c0.2 (map (fun c => c.2) cs) = Ok (r_unc fin).
Proof.
  unfold final_record. destruct combined as [|c0 cs]; [done|]. intros Hfin.
  apply rbind_ok in Hfin as (flux & Hflux & Hfin).
  apply rbind_ok in Hfin as (unc & Hunc & Hfin).
  destruct counts as [c|]; [|done]. injection Hfin as <-.
  exists c0, cs. done.
Qed.

Lemma extract_ok data filt pixel_masks subarray units kwargs rng st res :
  extract trace_wavelengths wavelength_bins counts_to_flux random_normal
    combine_spectra argsort data filt pixel_masks subarray units kwargs rng = (st, Ok res) ->
  exists ws wbs s1 results counts combined fin,
    trace_wavelengths None None 10 "SUBSTRIP256" = Ok ws /\
    wavelength_bins subarray = Ok wbs /\
    extract_orders counts_to_flux random_normal argsort filt subarray units kwargs 0
      (zip (zip ws wbs) (default_masks data pixel_masks)) ∅ None
      (State data rng []) = (s1, Ok (results, counts)) /\
    combine_frames combine_spectra results (seq 0 (shape0 (cshape data))) [] s1
      = (st, Ok combined) /\
    final_record filt subarray combined counts = Ok fin /\
    res = <["final" := fin]> results.
Proof.
  unfold extract, extract_body. intros Hrun.
  apply mbind_ok in Hrun as (s0 & ws & Hws & Hrun).
  apply mbind_ok in Hrun as (s0' & wbs & Hwbs & Hrun).
  apply mbind_ok in Hrun as (s1 & [results counts] & Horders & Hrun).
  apply mbind_ok in Hrun as (s2 & combined & Hcombined & Hrun).
  apply mbind_ok in Hrun as (s3 & fin & Hfin & Hrun).
  apply lift_ok in Hws as [Hws ->], Hwbs as [Hwbs ->], Hfin as [Hfin ->].
  unfold mret in Hrun. injection Hrun as <- <-.
  exists ws, wbs, s1, results, counts, combined, fin. done.
Qed.

(** The steps of one pass of the per-order loop. *)
Lemma extract_order_steps filt subarray units kwargs n w wb m (s s' : state) cr :
  extract_order counts_to_flux random_normal argsort filt subarray units kwargs
    n w wb m s = (s', Ok cr) ->
  exists counts flux unc,
    bin_counts (st_data s) wb (Some m) = (st_data s', Ok counts) /\
    counts_to_flux w counts filt subarray (n + 1) units kwargs = Ok flux /\
    random_normal (st_rng s) flux (scale_centi flux) = (st_rng s', Ok unc) /\
    r_wavelength cr.2 = take_idx (argsort w) w /\
    take_cols (argsort w) counts = Ok (r_counts cr.2) /\
    take_cols (argsort w) flux = Ok (r_flux cr.2) /\
    take_cols (argsort w) unc = Ok (r_unc cr.2).
Proof.
  unfold extract_order. intros Hrun.
  apply mbind_ok in Hrun as (s1 & counts & Hcounts & Hrun).
  apply mbind_ok in Hrun as (s2 & flux & Hflux & Hrun).
  apply mbind_ok in Hrun as (s3 & unc & Hunc & Hrun).
  apply mbind_ok in Hrun as (s4 & flux' & Hflux' & Hrun).
  apply mbind_ok in Hrun as (s5 & unc' & Hunc' & Hrun).
  apply mbind_ok in Hrun as (s6 & counts' & Hcounts' & Hrun).
  apply lift_ok in Hflux as [Hflux ->], Hflux' as [Hflux' ->],
    Hunc' as [Hunc' ->], Hcounts' as [Hcounts' ->].
  unfold mret in Hrun. injection Hrun as <- <-.
  unfold call_bin_counts in Hcounts.
  destruct (bin_counts (st_data s) wb (Some m)) as [d rc] eqn:Hbc.
  injection Hcounts as <- ->.
  unfold call_random_normal in Hunc.
  destruct (random_normal _ flux (scale_centi flux)) as [g ru] eqn:Hrn.
  injection Hunc as <- ->. simpl in *.
  exists counts, flux, unc. done.
Qed.

Lemma extract_orders_dom filt subarray units kwargs n orders results counts
    (s s' : state) results' counts' :
  extract_orders counts_to_flux random_normal argsort filt subarray units kwargs n
    orders results counts s = (s', Ok (results', counts')) ->
  dom results' = dom results ∪ list_to_set (order_name <$> seq n (length orders)).
Proof.
  revert n results counts s.
  induction orders as [|[[w wb] m] orders IH]; simpl; intros n results counts s Hrun.
  - unfold mret in Hrun. injection Hrun as <- <- <-.
    by rewrite (right_id_L ∅ (∪)).
  - apply mbind_ok in Hrun as (s1 & cr & _ & Hrun).
    apply IH in Hrun. rewrite Hrun, dom_insert_L.
    by rewrite (comm_L (∪) {[order_name n]}), (assoc_L (∪)).
Qed.

(** A pass does not touch the records of the passes before it. *)
Lemma extract_orders_earlier filt subarray units kwargs n orders results counts
    (s s' : state) results' counts' k :
  extract_orders counts_to_flux random_normal argsort filt subarray units kwargs n
    orders results counts s = (s', Ok (results', counts')) ->
  k < n -> results' !! order_name k = results !! order_name k.
Proof.
  revert n results counts s.
  induction orders as [|[[w wb] m] orders IH]; simpl; intros n results counts s Hrun Hk.
  - unfold mret in Hrun. by injection Hrun as <- <- <-.
  - apply mbind_ok in Hrun as (s1 & cr & _ & Hrun).
    rewrite (IH _ _ _ _ Hrun) by lia.
    apply lookup_insert_ne. intros Heq. apply order_name_inj in Heq. lia.
Qed.

(** Pass [i] of the loop: the state it starts from holds the caller's
    array as the passes before have left it, and its record is the one
    found under its name when the loop is over. *)
Lemma extract_orders_pass filt subarray units kwargs n orders results counts
    (s s' : state) results' counts' i w wb m :
  extract_orders counts_to_flux random_normal argsort filt subarray units kwargs n
    orders results counts s = (s', Ok (results', counts')) ->
  orders !! i = Some (w, wb, m) ->
  exists si si' cr,
    extract_order counts_to_flux random_normal argsort filt subarray units kwargs
      (n + i) w wb m si = (si', Ok cr) /\
    results' !! order_name (n + i) = Some cr.2 /\
    st_data si = data_before (st_data s) orders i.
Proof.
  revert n i results counts s.
  induction orders as [|[[w0 wb0] m0] orders IH]; intros n i results counts s Hrun Hi;
    [done|].
  simpl in Hrun. apply mbind_ok in Hrun as (s1 & cr & Hcr & Hrun).
  destruct i as [|i]; simpl in Hi.
  - injection Hi as -> -> ->. exists s, s1, cr. rewrite Nat.add_0_r.
    split; [done|]. split; [|done].
    rewrite (extract_orders_earlier _ _ _ _ _ _ _ _ _ _ _ _ n Hrun) by lia.
    apply lookup_insert_eq.
  - destruct (IH (S n) i _ _ _ Hrun Hi) as (si & si' & cri & Hcri & Hrec & Hdata).
    exists si, si', cri. replace (n + S i) with (S n + i) by lia.
    split; [done|]. split; [done|].
    apply extract_order_steps in Hcr as (c0 & _ & _ & Hbc & _).
    rewrite Hdata. unfold data_before. simpl. by rewrite Hbc.
Qed.

(** C2: every per-order record of the result belongs to one pass of the
    loop: its wavelengths are those the trace lookup gave for that order,
    in ascending order, and its flux, uncertainty and counts are the
    calibrated flux, the draw and the binned counts of that order with
    their columns taken through the same permutation of the indices, so
    that column j of each of them belongs to wavelength j. *)
Theorem extract_sorted_aligned data filt pixel_masks subarray units kwargs rng
    st res ws wbs n rec :
  argsort_contract argsort ->
  trace_wavelengths None None 10 "SUBSTRIP256" = Ok ws ->
  wavelength_bins subarray = Ok wbs ->
  extract trace_wavelengths wavelength_bins counts_to_flux random_normal
    combine_spectra argsort data filt pixel_masks subarray units kwargs rng
  = (st, Ok res) ->
  res !! order_name n = Some rec ->
  exists (w : list F) (wb : list wavebin) (m : ndarray F)
         (counts flux unc : array2 F) (g : R),
    zip (zip ws wbs) (default_masks data pixel_masks) !! n = Some (w, wb, m) /\
    (bin_counts (data_before data (zip (zip ws wbs) (default_masks data pixel_masks)) n)
       wb (Some m)).2 = Ok counts /\
    counts_to_flux w counts filt subarray (n + 1) units kwargs = Ok flux /\
    (random_normal g flux (scale_centi flux)).2 = Ok unc /\
    Sorted (fun a b => fle a b = true) (r_wavelength rec) /\
    argsort w ≡ₚ seq 0 (length w) /\
    length (r_wavelength rec) = length w /\
    nrows (r_flux rec) = nrows flux /\ ncols (r_flux rec) = length w /\
    nrows (r_unc rec) = nrows unc /\ ncols (r_unc rec) = length w /\
    nrows (r_counts rec) = nrows counts /\ ncols (r_counts rec) = length w /\
    forall j k, argsort w !! j = Some k ->
      nth j (r_wavelength rec) fzero = nth k w fzero /\
      (forall i, i < nrows flux ->
         nth (i * length w + j) (elems (r_flux rec)) fzero
         = nth (i * ncols flux + k) (elems flux) fzero) /\
      (forall i, i < nrows unc ->
         nth (i * length w + j) (elems (r_unc rec)) fzero
         = nth (i * ncols unc + k) (elems unc) fzero) /\
      (forall i, i < nrows counts ->
         nth (i * length w + j) (elems (r_counts rec)) fzero
         = nth (i * ncols counts + k) (elems counts) fzero).
Proof.
  intros Hsort Hws Hwbs Hrun Hrec.
  apply extract_ok in Hrun
    as (ws' & wbs' & s1 & results & cnt & combined & fin
        & Hws' & Hwbs' & Horders & _ & _ & ->).
  rewrite Hws in Hws'. injection Hws' as <-.
  rewrite Hwbs in Hwbs'. injection Hwbs' as <-.
  rewrite lookup_insert_ne in Hrec by (symmetry; apply order_name_final).
  set (orders := zip (zip ws wbs) (default_masks data pixel_masks)) in *.
  assert (Hn : n < length orders).
  { pose proof (extract_orders_dom _ _ _ _ _ _ _ _ _ _ _ _ Horders) as Hdom.
    assert (Hin : order_name n ∈ dom results) by (apply elem_of_dom; eauto).
    rewrite Hdom, dom_empty_L, (left_id_L ∅ (∪)) in Hin.
    apply elem_of_list_to_set, list_elem_of_fmap in Hin as (k & Hk & Hin).
    apply order_name_inj in Hk as ->. apply elem_of_seq in Hin. lia. }
  destruct (lookup_lt_is_Some_2 orders n Hn) as [[[w wb] m] Ho].
  destruct (extract_orders_pass _ _ _ _ _ _ _ _ _ _ _ _ _ _ _ _ Horders Ho)
    as (si & si' & cr & Hcr & Hrec' & Hdata).
  simpl in Hrec', Hdata, Hcr. rewrite Hrec in Hrec'. injection Hrec' as ->.
  apply extract_order_steps in Hcr
    as (counts & flux & unc & Hbc & Hflux & Hunc & Hw & Hc & Hf & Hu).
  exists w, wb, m, counts, flux, unc, (st_rng si).
  destruct (take_cols_shape _ _ _ Hf) as [Hfr Hfc].
  destruct (take_cols_shape _ _ _ Hu) as [Hur Huc].
  destruct (take_cols_shape _ _ _ Hc) as [Hcr' Hcc].
  rewrite (argsort_length argsort Hsort) in Hfc, Huc, Hcc.
  split; [done|]. split; [by rewrite <- Hdata, Hbc|]. split; [done|].
  split; [by rewrite Hunc|].
  split; [rewrite Hw; by apply argsort_sorted|].
  split; [by apply argsort_perm|].
  split; [rewrite Hw; unfold take_idx; by rewrite length_map, argsort_length|].
  repeat (split; [done|]).
  intros j k Hjk. split; [rewrite Hw; by apply take_idx_nth|].
  repeat split; intros i Hi.
  - pose proof (take_cols_at2 _ _ _ i j k Hf Hi Hjk) as Hat.
    unfold at2 in Hat. by rewrite Hfc in Hat.
  - pose proof (take_cols_at2 _ _ _ i j k Hu Hi Hjk) as Hat.
    unfold at2 in Hat. by rewrite Huc in Hat.
  - pose proof (take_cols_at2 _ _ _ i j k Hc Hi Hjk) as Hat.
    unfold at2 in Hat. by rewrite Hcc in Hat.
Qed.


(** C10: when the loop processes two orders, the counts of the final
    record are the sorted counts of the order-2 record. *)
Theorem extract_final_counts data filt pixel_masks subarray units kwargs rng
    st res ws wbs :
  trace_wavelengths None None 10 "SUBSTRIP256" = Ok ws ->
  wavelength_bins subarray = Ok wbs ->
  length (zip (zip ws wbs) (default_masks data pixel_masks)) = 2 ->
  extract trace_wavelengths wavelength_bins counts_to_flux random_normal
    combine_spectra argsort data filt pixel_masks subarray units kwargs rng = (st, Ok res) ->
  exists o2 fin : spectra F,
    res !! "order2" = Some o2 /\ res !! "final" = Some fin /\
    r_counts fin = r_counts o2.
Proof.
  intros Hws Hwbs Hlen Hrun.
  apply extract_ok in Hrun
    as (ws' & wbs' & s1 & results & counts & combined & fin
        & Hws' & Hwbs' & Horders & _ & Hfin & ->).
  rewrite Hws in Hws'. injection Hws' as <-.
  rewrite Hwbs in Hwbs'. injection Hwbs' as <-.
  destruct (extract_orders_last _ _ _ _ _ _ _ _ _ _ _ _ 1 Horders Hlen)
    as (o2 & Ho2 & ->).
  apply final_record_ok in Hfin as (c0 & cs & _ & [= Hc] & _).
  exists o2, fin. rewrite lookup_insert_ne by done. rewrite lookup_insert_eq.
  done.
Qed.

Lemma mbind_raise {A B : Type} (m : M A) (k : A -> M B) (s : state) :
  is_ok (m s).2 = false -> is_ok (mbind m k s).2 = false.
Proof. unfold mbind. by destruct (m s) as [s1 [a|e]]. Qed.

(** Without an [order2] record the frames cannot be combined. *)
Lemma combine_without_order2 results frames counts filt subarray (s : state) :
  results !! "order2" = None ->
  is_ok (mbind (combine_frames combine_spectra results frames [])
           (fun combined => lift (final_record filt subarray combined counts)) s).2
  = false.
Proof.
  intros Hnone. destruct frames as [|n frames]; [done|].
  apply mbind_raise. simpl. unfold mbind at 1.
  destruct (lift (order_spectrum results "order1" n) s) as [s1 [spec1|e]]; [|done].
  apply mbind_raise. unfold lift, order_spectrum, getitem. by rewrite Hnone.
Qed.

Lemma extract_orders_short filt subarray units kwargs orders (s s' : state)
    results counts :
  length orders < 2 ->
  extract_orders counts_to_flux random_normal argsort filt subarray units kwargs 0
    orders ∅ None s = (s', Ok (results, counts)) ->
  results !! "order2" = None.
Proof.
  intros Hlen Hrun. destruct orders as [|[[w wb] m] [|o orders]]; simpl in *; [| |lia].
  - unfold mret in Hrun. by injection Hrun as <- <- <-.
  - apply mbind_ok in Hrun as (s1 & cr & _ & Hrun).
    unfold mret in Hrun. injection Hrun as <- <- <-.
    rewrite lookup_insert_ne by done. done.
Qed.

(** C7 (amended): [extract] fails whenever fewer than two pixel masks are
    supplied, and masks beyond the number of orders of the lookups are
    ignored. *)
Theorem extract_mask_count data filt subarray units kwargs rng
    (masks extra : list (ndarray F)) :
  (length masks < 2 ->
   is_ok (extract trace_wavelengths wavelength_bins counts_to_flux random_normal
            combine_spectra argsort data filt (Some masks) subarray units kwargs rng).2
   = false) /\
  ((forall ws wbs, trace_wavelengths None None 10 "SUBSTRIP256" = Ok ws ->
                   wavelength_bins subarray = Ok wbs ->
                   length (zip ws wbs) <= length masks) ->
   extract trace_wavelengths wavelength_bins counts_to_flux random_normal
     combine_spectra argsort data filt (Some (masks ++ extra)) subarray units kwargs rng
   = extract trace_wavelengths wavelength_bins counts_to_flux random_normal
       combine_spectra argsort data filt (Some masks) subarray units kwargs rng).
Proof.
  split.
  - intros Hlen. unfold extract, extract_body.
    unfold mbind at 1, lift at 1.
    destruct (trace_wavelengths None None 10 "SUBSTRIP256") as [ws|]; [|done].
    unfold mbind at 1, lift at 1.
    destruct (wavelength_bins subarray) as [wbs|]; [|done].
    unfold mbind at 1. simpl default_masks.
    destruct (extract_orders _ _ _ _ _ _ _ _ _ _ _) as [s1 [[results counts]|e]] eqn:Horders;
      [|done].
    apply extract_orders_short in Horders.
    + unfold mbind at 1.
      pose proof (combine_without_order2 results (seq 0 (shape0 (cshape data)))
                    counts filt subarray s1 Horders) as Hfail.
      unfold mbind at 1 in Hfail.
      destruct (combine_frames _ _ _ _ s1) as [s2 [combined|e]]; [|done].
      unfold mbind at 1.
      destruct (lift (final_record _ _ _ _) s2) as [s3 [fin|e]]; done.
    + rewrite length_zip_with. lia.
  - intros Hlen. unfold extract, extract_body.
    unfold mbind at 1 3, lift at 1 5.
    destruct (trace_wavelengths None None 10 "SUBSTRIP256") as [ws|] eqn:Hws; [|done].
    unfold mbind at 1 2, lift at 1 4.
    destruct (wavelength_bins subarray) as [wbs|] eqn:Hwbs; [|done].
    simpl default_masks. rewrite zip_app_longer by eauto. done.
Qed.

(** The trace lookup is asked for SUBSTRIP256 whatever subarray the
    caller names. *)
Lemma extract_trace_subarray data filt pixel_masks subarray units kwargs rng :
  extract trace_wavelengths wavelength_bins counts_to_flux random_normal
    combine_spectra argsort data filt pixel_masks subarray units kwargs rng
  = extract (fun order file npix _ => trace_wavelengths order file npix "SUBSTRIP256")
      wavelength_bins counts_to_flux random_normal
      combine_spectra argsort data filt pixel_masks subarray units kwargs rng.
Proof. reflexivity. Qed.
End ExtractFacts.
(** ** When [extract] returns *)

Section ExtractReturns.
Context {F : Type} `{FloatOps F} {R U K : Type}.
Variable trace_wavelengths :
  option nat -> option string -> nat -> string -> result (list (list F)).
Variable wavelength_bins : string -> result (list (list wavebin)).
Variable counts_to_flux :
  list F -> array2 F -> string -> string -> nat -> U -> K -> result (array2 F).
Variable random_normal : R -> array2 F -> array2 F -> R * result (array2 F).
Variable combine_spectra :
  spectrum (F:=F) -> spectrum (F:=F) -> result (spectrum (F:=F)).
Variable argsort : list F -> list nat.

(** [argsort] sorts; the collaborators return, and keep shapes: the flux
    has the shape of the counts, the draw the shape of its location, and
    the length of a combined spectrum depends on the lengths of the two
    spectra only. *)
Variable combined_length : nat -> nat -> nat.
Hypothesis argsort_meets : argsort_contract argsort.
Hypothesis counts_to_flux_returns : forall w c filt sub order units kwargs,
  exists flux, counts_to_flux w c filt sub order units kwargs = Ok flux /\
               nrows flux = nrows c /\ ncols flux = ncols c.
Hypothesis random_normal_returns : forall g loc scale,
  exists unc, (random_normal g loc scale).2 = Ok unc /\
              nrows unc = nrows loc /\ ncols unc = ncols loc.
Hypothesis combine_spectra_returns : forall s1 s2 : spectrum (F:=F),
  rectangular s1 -> rectangular s2 ->
  exists s3, combine_spectra s1 s2 = Ok s3 /\
             length s3.1.2 = combined_length (length s1.1.1) (length s2.1.1) /\
             length s3.2 = combined_length (length s1.1.1) (length s2.1.1).

Abbreviation state := (state (F:=F) (R:=R)).

Lemma bin_counts_returns (data : cube F) wavebins pixel_mask f r c :
  view3 (cshape data) = (f, r, c) ->
  mask_accepted data pixel_mask = true ->
  Forall (fun wb => is_ok (bin_pixels r c wb) = true) wavebins ->
  exists counts,
    (bin_counts data wavebins pixel_mask).2 = Ok counts /\
    nrows counts = f /\ ncols counts = length wavebins.
Proof.
  intros Hv Hacc Hbins. rewrite (bin_counts_unfold data wavebins pixel_mask f r c Hv).
  rewrite (apply_mask_accepted data pixel_mask f r c Hv Hacc). simpl.
  destruct (fill_counts_ok f r c (masked_buffer pixel_mask r c (cbuf data))
              (length wavebins) 0 wavebins (replicate (f * length wavebins) fzero) Hbins)
    as [cs ->].
  eexists. split; [done|]. done.
Qed.

Lemma extract_order_returns filt subarray units kwargs n w wb m (s : state) f r c :
  view3 (cshape (st_data s)) = (f, r, c) ->
  mask_accepted (st_data s) (Some m) = true ->
  order_ok r c (w, wb, m) ->
  exists s' cr,
    extract_order counts_to_flux random_normal argsort filt subarray units kwargs
      n w wb m s = (s', Ok cr) /\
    cshape (st_data s') = cshape (st_data s) /\
    cdtype (st_data s') = cdtype (st_data s) /\
    cview (st_data s') = cview (st_data s) /\
    cwritable (st_data s') = cwritable (st_data s) /\
    record_shape f cr.2.
Proof.
  intros Hv Hacc [Hbins Hlen]. simpl in Hbins, Hlen.
  destruct (bin_counts_returns (st_data s) wb (Some m) f r c Hv Hacc Hbins)
    as (counts & Hbc & Hcr & Hcc).
  destruct (bin_counts_frame (st_data s) wb (Some m))
    as (Hshape & Hkind & Hview & Hwrite & _).
  destruct (counts_to_flux_returns w counts filt subarray (n + 1) units kwargs)
    as (flux & Hflux & Hfr & Hfc).
  destruct (random_normal_returns (st_rng s) flux (scale_centi flux))
    as (unc & Hunc & Hur & Huc).
  destruct (take_cols_returns (argsort w) flux) as (flux' & Hflux' & Hfr' & Hfc' & Hfwf).
  { apply (argsort_bound argsort argsort_meets). lia. }
  destruct (take_cols_returns (argsort w) unc) as (unc' & Hunc' & Hur' & Huc' & Huwf).
  { apply (argsort_bound argsort argsort_meets). lia. }
  destruct (take_cols_returns (argsort w) counts) as (counts' & Hcounts' & _).
  { apply (argsort_bound argsort argsort_meets). lia. }
  unfold extract_order, mbind, call_bin_counts, call_random_normal, lift, mret.
  destruct (bin_counts (st_data s) wb (Some m)) as [d rc]. simpl in *. subst rc.
  rewrite Hflux. simpl.
  destruct (random_normal (st_rng s) flux (scale_centi flux)) as [g ru].
  simpl in Hunc. subst ru. rewrite Hflux', Hunc', Hcounts'.
  eexists _, _. do 5 (split; [done|]).
  unfold record_shape. simpl. unfold take_idx.
  rewrite length_map, (argsort_length argsort argsort_meets) in *.
  repeat split; try done; lia.
Qed.

Lemma combine_frames_returns results o1 o2 f frames acc (s : state) :
  results !! "order1" = Some o1 -> results !! "order2" = Some o2 ->
  record_shape f o1 -> record_shape f o2 ->
  Forall (fun n => n < f) frames ->
  exists s' new,
    combine_frames combine_spectra results frames acc s = (s', Ok (acc ++ new)) /\
    length new = length frames /\
    Forall (fun c => length c.1.2
                     = combined_length (length (r_wavelength o1)) (length (r_wavelength o2))
                     /\ length c.2
                     = combined_length (length (r_wavelength o1)) (length (r_wavelength o2)))
           new.
Proof.
  intros Ho1 Ho2 (Hf1 & Hfr1 & Hfc1 & Hu1 & Hur1 & Huc1)
    (Hf2 & Hfr2 & Hfc2 & Hu2 & Hur2 & Huc2) Hframes.
  revert acc s. induction Hframes as [|n frames Hn _ IH]; intros acc s.
  - exists s, []. simpl. unfold mret. by rewrite app_nil_r.
  - destruct (get_row_returns n (r_flux o1)) as (f1 & Hrf1 & Hlf1); [done|lia|].
    destruct (get_row_returns n (r_unc o1)) as (u1 & Hru1 & Hlu1); [done|lia|].
    destruct (get_row_returns n (r_flux o2)) as (f2 & Hrf2 & Hlf2); [done|lia|].
    destruct (get_row_returns n (r_unc o2)) as (u2 & Hru2 & Hlu2); [done|lia|].
    assert (Hs1 : order_spectrum results "order1" n = Ok (r_wavelength o1, f1, u1)).
    { unfold order_spectrum, getitem. rewrite Ho1. simpl. rewrite Hrf1, Hru1. simpl.
      unfold mk_spectrum.
      by rewrite Hlf1, Hlu1, Hfc1, Huc1, !Nat.eqb_refl. }
    assert (Hs2 : order_spectrum results "order2" n = Ok (r_wavelength o2, f2, u2)).
    { unfold order_spectrum, getitem. rewrite Ho2. simpl. rewrite Hrf2, Hru2. simpl.
      unfold mk_spectrum.
      by rewrite Hlf2, Hlu2, Hfc2, Huc2, !Nat.eqb_refl. }
    destruct (combine_spectra_returns (r_wavelength o1, f1, u1) (r_wavelength o2, f2, u2))
      as (s3 & Hs3 & Hl3 & Hl3').
    { unfold rectangular. simpl. lia. }
    { unfold rectangular. simpl. lia. }
    destruct (IH (acc ++ [s3])
                (State (st_data s) (st_rng s)
                   (st_out s ++ [((r_wavelength o1, f1, u1), (r_wavelength o2, f2, u2))])))
      as (s' & new & Hrun & Hlen & Hall).
    exists s', (s3 :: new). split; [|split; [simpl; lia|by constructor]].
    simpl. unfold mbind, lift, print. rewrite Hs1, Hs2, Hs3.
    rewrite <- app_assoc in Hrun. exact Hrun.
Qed.

Lemma stack_rows_returns (r0 : list F) (rest : list (list F)) :
  Forall (fun r => length r = length r0) rest ->
  exists a, stack_rows r0 rest = Ok a.
Proof.
  intros Hrest. unfold stack_rows.
  assert (forallb (fun r => length r =? length r0) rest = true) as ->; [|eauto].
  apply forallb_forall. intros x Hx. apply Nat.eqb_eq.
  rewrite Forall_forall in Hrest. by apply Hrest, list_elem_of_In.
Qed.

End ExtractReturns.
(** ** The exact instance satisfies the laws the theorems assume *)

Lemma xle_total (x y : xfloat) : fle x y = true \/ fle y x = true.
Proof.
  destruct x as [|p], y as [|q]; simpl; auto.
  destruct (Qlt_le_dec q p) as [Hlt|Hle].
  - right. apply Qle_bool_iff. by apply Qlt_le_weak.
  - left. by apply Qle_bool_iff.
Qed.

Lemma xmul_one_r (x : xfloat) : fmul x fone = x.
Proof.
  destruct x as [|[n d]]; [done|]. simpl. unfold Qmult. simpl.
  by rewrite Z.mul_1_r, Pos.mul_1_r.
Qed.

Lemma xfloat_argsort : argsort_contract (merge_argsort (F:=xfloat)).
Proof. apply merge_argsort_contract, xle_total. Qed.

(** ** Runs on concrete inputs *)


(** A NaN in the data counts as zero: the four pixels 1.5, NaN, 3, 4 of
    the first frame sum to 8.5. *)
Lemma bin_counts_nan_example :
  (bin_counts Fixed.data [Example.all_pixels] None).2
  = Ok (Array2 2 1 [CNum 850; CNum 2600]).
Proof. reflexivity. Qed.

(** [bin_counts_mask_mismatch] on a 1D mask of four elements. *)
Lemma bin_counts_mask_mismatch_witness :
  bin_counts Example.data [Example.all_pixels] (Some Example.wrong_shape)
  = bin_counts Example.data [Example.all_pixels] None
  /\ (bin_counts Example.data [Example.all_pixels] (Some Example.wrong_shape)).1
     = Example.data.
Proof.
  apply (bin_counts_mask_mismatch Example.data [Example.all_pixels] Example.wrong_shape).
  simpl. discriminate.
Defined.

(** [bin_counts_ones_mask] on [np.ones((2, 2))]. *)
Lemma bin_counts_ones_mask_witness :
  bin_counts Example.data [Example.all_pixels] (Some Example.ones)
  = bin_counts Example.data [Example.all_pixels] None.
Proof.
  apply (bin_counts_ones_mask Example.data [Example.all_pixels] Example.ones xmul_one_r).
  - reflexivity.
  - repeat constructor.
  - reflexivity.
Defined.

(** C9 (the code at the failing input): on an integer cube the all-ones
    mask [np.ones((2, 2))], an array of floats, makes the in-place
    multiply raise a TypeError where the call without a mask returns the
    sums 10 and 26; [extract] with its default masks, which are such
    arrays, fails on that cube in the same way. *)
Theorem int_cube_ones_mask_raises :
  Forall (fun w => w = fone) (buf Example.ones)
  /\ (bin_counts Example.int_data [Example.all_pixels] (Some Example.ones)).2
     = Raise TypeError
  /\ (bin_counts Example.int_data [Example.all_pixels] None).2
     = Ok (Array2 2 1 (map xn [10; 26]%Z))
  /\ (Example.run Example.int_data None "SUBSTRIP256").2 = Raise TypeError.
Proof. split; [repeat constructor|]. vm_compute. repeat split. Qed.

(** C3 (the code at the failing input): a mask of the frame's shape is
    multiplied into the caller's array, so the array differs after the
    call, and inside [extract] the second order is binned from data the
    first order's mask has already zeroed: its counts are 0 where binning
    the caller's data with the second mask gives 6, 4, 14 and 8. *)
Theorem bin_counts_overwrites_data :
  (bin_counts Example.data [Example.all_pixels] (Some Example.left_column)).1
  = Cube (Shape3 2 2 2) KFloat true true (map xn [1; 0; 3; 0; 5; 0; 7; 0]%Z)
  /\ Example.field r_counts "order2"
       (Example.run Example.data (Some [Example.left_column; Example.right_column])
          "SUBSTRIP256")
     = Some (Array2 2 2 (map xn [0; 0; 0; 0]%Z))
  /\ (bin_counts Example.data [Example.all_pixels; Example.last_pixel]
        (Some Example.right_column)).2
     = Ok (Array2 2 2 (map xn [6; 4; 14; 8]%Z)).
Proof. vm_compute. repeat split. Qed.

(** C5 (the code at the failing input): called for SUBSTRIP96, [extract]
    sorts and stores the wavelengths the trace lookup gives for
    SUBSTRIP256, not the ones it gives for SUBSTRIP96. *)
Theorem extract_trace_lookup_subarray :
  Example.trace_wavelengths None None 10 "SUBSTRIP96"
  = Ok [map xn [30; 10; 20]%Z; map xn [20; 10]%Z]
  /\ Example.field r_wavelength "order1" (Example.run Example.data None "SUBSTRIP96")
     = Some (map xn [1; 2; 3]%Z)
  /\ Example.field r_wavelength "order2" (Example.run Example.data None "SUBSTRIP96")
     = Some (map xn [1; 2]%Z)
  /\ Example.field r_subarray "order1" (Example.run Example.data None "SUBSTRIP96")
     = Some "SUBSTRIP96".
Proof. vm_compute. repeat split. Qed.

(** Three masks for the two orders of the lookups: the call returns. *)
Lemma extract_mask_count_counterexample :
  exists (masks : list (ndarray xfloat)) (wbs : list (list wavebin)),
    Example.wavelength_bins "SUBSTRIP256" = Ok wbs /\
    length masks <> length wbs /\
    is_ok (Example.run Example.data (Some masks) "SUBSTRIP256").2 = true.
Proof.
  exists Example.masks3, [[Example.all_pixels; Example.top_row; Example.last_pixel];
                          [Example.all_pixels; Example.last_pixel]].
  split; [reflexivity|]. split; [simpl; lia|]. vm_compute. reflexivity.
Qed.

(** [extract_sorted_aligned] on the order-1 record of the example run. *)
Lemma extract_sorted_aligned_witness :
  exists (w : list xfloat) (wb : list wavebin) (m : ndarray xfloat)
         (counts flux unc : array2 xfloat) (g : nat),
    zip (zip [map xn [3; 1; 2]%Z; map xn [2; 1]%Z]
             [[Example.all_pixels; Example.top_row; Example.last_pixel];
              [Example.all_pixels; Example.last_pixel]])
        (default_masks Example.data None) !! 0 = Some (w, wb, m) /\
    (bin_counts
       (data_before Example.data
          (zip (zip [map xn [3; 1; 2]%Z; map xn [2; 1]%Z]
                    [[Example.all_pixels; Example.top_row; Example.last_pixel];
                     [Example.all_pixels; Example.last_pixel]])
               (default_masks Example.data None)) 0)
       wb (Some m)).2 = Ok counts /\
    Example.counts_to_flux w counts "CLEAR" "SUBSTRIP256" (0 + 1) tt tt = Ok flux /\
    (Example.random_normal g flux (scale_centi flux)).2 = Ok unc /\
    Sorted (fun a b => fle a b = true) (r_wavelength Example.order1) /\
    merge_argsort w ≡ₚ seq 0 (length w) /\
    length (r_wavelength Example.order1) = length w /\
    nrows (r_flux Example.order1) = nrows flux /\
    ncols (r_flux Example.order1) = length w /\
    nrows (r_unc Example.order1) = nrows unc /\
    ncols (r_unc Example.order1) = length w /\
    nrows (r_counts Example.order1) = nrows counts /\
    ncols (r_counts Example.order1) = length w /\
    forall j k, merge_argsort w !! j = Some k ->
      nth j (r_wavelength Example.order1) fzero = nth k w fzero /\
      (forall i, i < nrows flux ->
         nth (i * length w + j) (elems (r_flux Example.order1)) fzero
         = nth (i * ncols flux + k) (elems flux) fzero) /\
      (forall i, i < nrows unc ->
         nth (i * length w + j) (elems (r_unc Example.order1)) fzero
         = nth (i * ncols unc + k) (elems unc) fzero) /\
      (forall i, i < nrows counts ->
         nth (i * length w + j) (elems (r_counts Example.order1)) fzero
         = nth (i * ncols counts + k) (elems counts) fzero).
Proof.
  apply (extract_sorted_aligned Example.trace_wavelengths Example.wavelength_bins
           Example.counts_to_flux Example.random_normal Example.combine_spectra
           merge_argsort Example.data "CLEAR" None "SUBSTRIP256" tt tt 0
           Example.outcome.1 Example.results
           [map xn [3; 1; 2]%Z; map xn [2; 1]%Z]
           [[Example.all_pixels; Example.top_row; Example.last_pixel];
            [Example.all_pixels; Example.last_pixel]] 0 Example.order1 xfloat_argsort).
  - reflexivity.
  - reflexivity.
  - vm_compute. reflexivity.
  - vm_compute. reflexivity.
Defined.


(** [extract_final_counts] on the example run, which has two orders. *)
Lemma extract_final_counts_witness :
  exists o2 fin : spectra xfloat,
    Example.results !! "order2" = Some o2 /\ Example.results !! "final" = Some fin /\
    r_counts fin = r_counts o2.
Proof.
  apply (extract_final_counts Example.trace_wavelengths Example.wavelength_bins
           Example.counts_to_flux Example.random_normal Example.combine_spectra
           merge_argsort Example.data "CLEAR" None "SUBSTRIP256" tt tt 0
           Example.outcome.1 Example.results
           [map xn [3; 1; 2]%Z; map xn [2; 1]%Z]
           [[Example.all_pixels; Example.top_row; Example.last_pixel];
            [Example.all_pixels; Example.last_pixel]]).
  - reflexivity.
  - reflexivity.
  - reflexivity.
  - vm_compute. reflexivity.
Defined.

(** [extract_mask_count] with one mask, and with a third mask added to
    two. *)
Lemma extract_mask_count_witness :
  is_ok (Example.run Example.data (Some [Example.ones]) "SUBSTRIP256").2 = false
  /\ Example.run Example.data (Some ([Example.ones; Example.ones] ++ [Example.ones]))
       "SUBSTRIP256"
     = Example.run Example.data (Some [Example.ones; Example.ones]) "SUBSTRIP256".
Proof.
  split.
  - apply (proj1 (extract_mask_count Example.trace_wavelengths Example.wavelength_bins
                    Example.counts_to_flux Example.random_normal Example.combine_spectra
                    merge_argsort Example.data "CLEAR" "SUBSTRIP256" tt tt 0 [Example.ones] [])).
    simpl. lia.
  - apply (proj2 (extract_mask_count Example.trace_wavelengths Example.wavelength_bins
                    Example.counts_to_flux Example.random_normal Example.combine_spectra
                    merge_argsort Example.data "CLEAR" "SUBSTRIP256" tt tt 0
                    [Example.ones; Example.ones] [Example.ones])).
    intros ws wbs Hws Hwbs. injection Hws as <-. injection Hwbs as <-. simpl. lia.
Defined.


(** * Further properties of [bin_counts] *)

Lemma rmapM_raise {A B} (f : A -> result B) (e0 : exn) l e :
  (forall a e', f a = Raise e' -> e' = e0) -> rmapM f l = Raise e -> e = e0.
Proof.
  intros Hf. induction l as [|a l IH]; simpl; [done|].
  destruct (f a) as [b|e'] eqn:Hfa; simpl.
  - destruct (rmapM f l) as [bs|e'']; simpl; [done|].
    intros [= <-]. by apply IH.
  - intros [= <-]. by eapply Hf.
Qed.

Lemma bin_pixels_raise r c wb e : bin_pixels r c wb = Raise e -> e = IndexError.
Proof.
  unfold bin_pixels.
  destruct (broadcast_index wb.1 wb.2) as [ps|e'] eqn:Hb; simpl.
  - apply rmapM_raise. intros p e'. unfold norm_pixel, norm_index.
    repeat case_match; simpl; congruence.
  - unfold broadcast_index in Hb. repeat case_match; congruence.
Qed.

Section BinCountsMore.
Context {F : Type} `{FloatOps F}.

Lemma fill_counts_raise f r c (b : list F) nb n wbs counts e :
  fill_counts f r c b nb n wbs counts = Raise e -> e = IndexError.
Proof.
  revert n counts. induction wbs as [|wb wbs IH]; intros n counts; simpl; [done|].
  unfold bin_column. destruct (bin_pixels r c wb) as [ps|e'] eqn:Hps; simpl.
  - apply IH.
  - intros [= <-]. by eapply bin_pixels_raise.
Qed.


Lemma nansum_zero (l : list F) :
  Forall (fun v => fadd fzero (replace_nan v) = fzero) l -> nansum l = fzero.
Proof.
  unfold nansum. induction 1 as [|v l Hv _ IH]; simpl; [done|]. by rewrite Hv.
Qed.

(** X2: pixels the mask weights by zero add nothing: when a mask of the
    frame's shape is zero at every pixel of a bin, the count of that bin
    is zero in every frame (also where the data hold NaN). *)
Theorem bin_counts_zero_mask (data : cube F) (wavebins : list wavebin)
    (m : ndarray F) (f r c : nat) (counts : array2 F) (n : nat) (wb : wavebin)
    (ps : list (nat * nat)) :
  (forall x : F, fadd fzero (replace_nan (fmul x fzero)) = fzero) ->
  wf_cube data -> view3 (cshape data) = (f, r, c) -> shape m = [r; c] ->
  (bin_counts data wavebins (Some m)).2 = Ok counts ->
  wavebins !! n = Some wb -> bin_pixels r c wb = Ok ps ->
  Forall (fun p => nth (p.1 * c + p.2) (buf m) fone = fzero) ps ->
  forall fr, fr < f -> at2 counts fr n = fzero.
Proof.
  intros Hzero Hwf Hv Hm Hrun Hn Hps Hmask fr Hfr.
  destruct (bin_counts_entries data wavebins (Some m) f r c counts Hwf Hv Hrun)
    as (_ & Hc & _ & Hentries).
  destruct (Hentries fr n wb Hfr Hn) as (ps' & Hps' & Hentry).
  assert (ps' = ps) as -> by congruence.
  unfold at2. rewrite Hc, (nth_lookup_Some _ _ _ _ Hentry).
  apply nansum_zero. apply Forall_fmap.
  eapply Forall_impl; [exact Hmask|]. intros [x y] Hxy. simpl in *.
  unfold masked_count. rewrite Hv, bool_decide_eq_true_2 by done.
  by rewrite Hxy.
Qed.

(** X3: what the call leaves in the caller's array. The array keeps its
    shape and size. When the array the function works on shares the
    caller's memory (a 3D array, or a 4D array whose first two axes merge
    without a copy) and the multiply takes the mask, every pixel of every
    frame holds the masked count (the count itself when no mask of the
    frame's shape was given). When the reshape copied, or the multiply
    raised, the caller's array is as it was. *)
Theorem bin_counts_data_after (data : cube F) (wavebins : list wavebin)
    (pixel_mask : option (ndarray F)) (f r c : nat) :
  wf_cube data -> view3 (cshape data) = (f, r, c) ->
  cshape (bin_counts data wavebins pixel_mask).1 = cshape data /\
  wf_cube (bin_counts data wavebins pixel_mask).1 /\
  (shares_buffer data = true -> mask_accepted data pixel_mask = true ->
   forall fr x y, fr < f -> x < r -> y < c ->
     pixel r c (cbuf (bin_counts data wavebins pixel_mask).1) fr x y
     = masked_count data pixel_mask fr x y) /\
  (shares_buffer data = false \/ mask_accepted data pixel_mask = false ->
   (bin_counts data wavebins pixel_mask).1 = data).
Proof.
  intros Hwf Hv.
  destruct (bin_counts_frame data wavebins pixel_mask) as (Hs & _ & _ & _ & Hlen).
  split; [done|]. split; [by unfold wf_cube in *; rewrite Hs, Hlen|].
  rewrite (bin_counts_unfold data wavebins pixel_mask f r c Hv). split.
  - intros Hshare Hacc fr x y Hfr Hx Hy.
    rewrite (apply_mask_accepted data pixel_mask f r c Hv Hacc), Hshare. simpl.
    by apply (masked_pixel data pixel_mask f).
  - intros Hcase.
    pose proof (apply_mask_is_ok data pixel_mask f r c Hv) as Hok.
    destruct (apply_mask _ _ _ _ _ _) as [b|e]; [|done]. simpl in *.
    destruct Hcase as [->|Hacc]; [done|congruence].
Qed.
End BinCountsMore.

(** * Further properties of [extract] *)

Section ExtractState.
Context {F : Type} `{FloatOps F} {R U K : Type}.
Variable trace_wavelengths :
  option nat -> option string -> nat -> string -> result (list (list F)).
Variable wavelength_bins : string -> result (list (list wavebin)).
Variable counts_to_flux :
  list F -> array2 F -> string -> string -> nat -> U -> K -> result (array2 F).
Variable random_normal : R -> array2 F -> array2 F -> R * result (array2 F).
Variable combine_spectra :
  spectrum (F:=F) -> spectrum (F:=F) -> result (spectrum (F:=F)).
Variable argsort : list F -> list nat.

Abbreviation state := (state (F:=F) (R:=R)).
Abbreviation M := (M (F:=F) (R:=R)).

Lemma keeps_mbind {X A B : Type} (proj : state -> X) (m : M A) (k : A -> M B) :
  keeps proj m -> (forall a, keeps proj (k a)) -> keeps proj (mbind m k).
Proof.
  intros Hm Hk s. unfold mbind. specialize (Hm s).
  destruct (m s) as [s1 [a|e]]; simpl in *; [|done].
  by rewrite Hk.
Qed.

Lemma keeps_lift {X A : Type} (proj : state -> X) (r : result A) :
  keeps proj (lift r).
Proof. by intros s. Qed.

Lemma keeps_mret {X A : Type} (proj : state -> X) (a : A) : keeps proj (mret a).
Proof. by intros s. Qed.

Lemma keeps_random_normal {X : Type} (proj : state -> X) loc scale :
  (forall d g g' o, proj (State d g o) = proj (State d g' o)) ->
  keeps proj (call_random_normal random_normal loc scale).
Proof.
  intros Hproj s. unfold call_random_normal.
  destruct (random_normal (st_rng s) loc scale) as [g r]. simpl.
  destruct s as [d g0 o]. simpl. apply Hproj.
Qed.

Lemma keeps_bin_counts {X : Type} (proj : state -> X) wavebin mask :
  (forall d d' g o, proj (State d g o) = proj (State d' g o)) ->
  keeps proj (call_bin_counts wavebin mask).
Proof.
  intros Hproj s. unfold call_bin_counts.
  destruct (bin_counts (st_data s) wavebin mask) as [d r]. simpl.
  destruct s as [d0 g o]. simpl. apply Hproj.
Qed.

(** A mask of ones leaves the data, also where the multiply raises. *)
Lemma keeps_data_bin_counts wavebin (m : ndarray F) :
  (forall x : F, fmul x fone = x) -> Forall (fun w => w = fone) (buf m) ->
  keeps (@st_data F R) (call_bin_counts wavebin (Some m)).
Proof.
  intros Hone Hm s. unfold call_bin_counts.
  destruct (bin_counts (st_data s) wavebin (Some m)) as [d r] eqn:Hbc. simpl.
  destruct (view3 (cshape (st_data s))) as [[f r0] c] eqn:Hv.
  rewrite (bin_counts_unfold _ _ _ f r0 c Hv) in Hbc.
  destruct (apply_mask _ _ _ _ _ _) as [b|e] eqn:Hb.
  - apply apply_mask_ok in Hb. rewrite masked_buffer_ones in Hb by done. subst b.
    injection Hbc as <- _. destruct (shares_buffer _); [apply with_buf_same|done].
  - by injection Hbc as <- _.
Qed.

Lemma keeps_print {X : Type} (proj : state -> X) (s1 s2 : spectrum (F:=F)) :
  (forall d g o o', proj (State d g o) = proj (State d g o')) ->
  keeps proj (print s1 s2).
Proof. intros Hproj [d g o]. apply Hproj. Qed.

Lemma keeps_combine_frames {X : Type} (proj : state -> X) results frames acc :
  (forall d g o o', proj (State d g o) = proj (State d g o')) ->
  keeps proj (combine_frames combine_spectra results frames acc).
Proof.
  intros Hproj. revert acc. induction frames as [|n frames IH]; intros acc; simpl.
  - apply keeps_mret.
  - repeat (apply keeps_mbind; [|intros ?]);
      auto using keeps_lift, keeps_print.
Qed.

Lemma keeps_extract_order {X : Type} (proj : state -> X)
    filt subarray units kwargs n w wb m :
  keeps proj (call_bin_counts wb (Some m)) ->
  (forall d g g' o, proj (State d g o) = proj (State d g' o)) ->
  keeps proj (extract_order counts_to_flux random_normal argsort filt subarray units kwargs
                n w wb m).
Proof.
  intros Hbc Hproj. unfold extract_order.
  repeat (apply keeps_mbind; [|intros ?]);
    auto using keeps_lift, keeps_mret, keeps_random_normal.
Qed.

Lemma keeps_extract_orders {X : Type} (proj : state -> X)
    filt subarray units kwargs n orders results counts :
  Forall (fun o : list F * list wavebin * ndarray F =>
            keeps proj (call_bin_counts o.1.2 (Some o.2))) orders ->
  (forall d g g' o, proj (State d g o) = proj (State d g' o)) ->
  keeps proj (extract_orders counts_to_flux random_normal argsort filt subarray units kwargs
                n orders results counts).
Proof.
  intros Horders Hproj. revert n results counts.
  induction Horders as [|[[w wb] m] orders Ho _ IH]; intros n results counts; simpl.
  - apply keeps_mret.
  - apply keeps_mbind; [by apply keeps_extract_order|]. intros cr. apply IH.
Qed.

Lemma keeps_extract_body {X : Type} (proj : state -> X)
    data filt pixel_masks subarray units kwargs :
  (forall ws wbs,
     Forall (fun o : list F * list wavebin * ndarray F =>
            keeps proj (call_bin_counts o.1.2 (Some o.2)))
       (zip (zip ws wbs) (default_masks data pixel_masks))) ->
  (forall d g g' o, proj (State d g o) = proj (State d g' o)) ->
  (forall d g o o', proj (State d g o) = proj (State d g o')) ->
  keeps proj (extract_body trace_wavelengths wavelength_bins counts_to_flux
                random_normal combine_spectra argsort data filt pixel_masks subarray
                units kwargs).
Proof.
  intros Horders Hrng Hout. unfold extract_body.
  apply keeps_mbind; [apply keeps_lift|]. intros ws.
  apply keeps_mbind; [apply keeps_lift|]. intros wbs.
  apply keeps_mbind; [by apply keeps_extract_orders|]. intros [results counts].
  apply keeps_mbind; [by apply keeps_combine_frames|]. intros combined.
  apply keeps_mbind; [apply keeps_lift|]. intros fin. apply keeps_mret.
Qed.

Lemma Forall_zip_r {A B : Type} (P : B -> Prop) (Q : A * B -> Prop)
    (l : list A) (k : list B) :
  (forall a b, P b -> Q (a, b)) -> Forall P k -> Forall Q (zip l k).
Proof.
  intros HPQ Hk. revert l. induction Hk as [|b k Hb _ IH]; intros [|a l]; simpl;
    constructor; auto.
Qed.

(** X4: with the default masks, or with masks that hold ones only,
    [extract] leaves the caller's data array as it found it, whether it
    returns or raises. *)
Theorem extract_ones_keeps_data data filt pixel_masks subarray units kwargs rng :
  (forall x : F, fmul x fone = x) ->
  Forall (fun m => Forall (fun w => w = fone) (buf m))
         (default (@nil (ndarray F)) pixel_masks) ->
  st_data (extract trace_wavelengths wavelength_bins counts_to_flux random_normal
             combine_spectra argsort data filt pixel_masks subarray units kwargs rng).1
  = data.
Proof.
  intros Hone Hmasks. unfold extract.
  rewrite (keeps_extract_body (@st_data F R)); [done| |done|done].
  intros ws wbs.
  apply (Forall_zip_r (fun m => Forall (fun w => w = fone) (buf m))).
  - intros [w wb] m Hm. by apply keeps_data_bin_counts.
  - unfold default_masks. destruct pixel_masks as [ms|]; [done|].
    destruct (spatial (cshape data)) as [r c].
    repeat constructor; simpl; by apply Forall_replicate.
Qed.

(** The generator is used by the loop over the orders only, and nothing
    is written before the frames are combined. *)
Lemma extract_orders_out filt subarray units kwargs n orders results counts
    (s : state) :
  st_out (extract_orders counts_to_flux random_normal argsort filt subarray units kwargs
            n orders results counts s).1 = st_out s.
Proof.
  apply (keeps_extract_orders (@st_out F R)); [|done].
  apply Forall_forall. intros o _. by apply keeps_bin_counts.
Qed.

Lemma combine_frames_out results frames acc (s s' : state) combined :
  combine_frames combine_spectra results frames acc s = (s', Ok combined) ->
  exists printed,
    st_out s' = st_out s ++ printed /\
    Forall2 (fun n p => order_spectrum results "order1" n = Ok p.1 /\
                        order_spectrum results "order2" n = Ok p.2) frames printed.
Proof.
  revert acc s. induction frames as [|n frames IH]; simpl; intros acc s Hrun.
  - unfold mret in Hrun. injection Hrun as <- <-.
    exists []. by rewrite app_nil_r.
  - apply mbind_ok in Hrun as (s1 & spec1 & Hspec1 & Hrun).
    apply mbind_ok in Hrun as (s2 & spec2 & Hspec2 & Hrun).
    apply mbind_ok in Hrun as (s3 & [] & Hprint & Hrun).
    apply mbind_ok in Hrun as (s4 & spec3 & Hspec3 & Hrun).
    apply lift_ok in Hspec1 as [Hspec1 ->], Hspec2 as [Hspec2 ->], Hspec3 as [Hspec3 ->].
    unfold print in Hprint. injection Hprint as <-.
    apply IH in Hrun as (printed & -> & Hprinted). simpl.
    exists ((spec1, spec2) :: printed). rewrite <- app_assoc. split; [done|].
    by constructor.
Qed.


Lemma extract_orders_data filt subarray units kwargs n orders results counts
    (s s' : state) rc f r c :
  extract_orders counts_to_flux random_normal argsort filt subarray units kwargs n
    orders results counts s = (s', Ok rc) ->
  view3 (cshape (st_data s)) = (f, r, c) ->
  st_data s'
  = if shares_buffer (st_data s)
    then with_buf (st_data s)
           (foldl (fun b o => masked_buffer (Some o.2) r c b) (cbuf (st_data s)) orders)
    else st_data s.
Proof.
  revert n results counts s.
  induction orders as [|[[w wb] m] orders IH]; simpl; intros n results counts s Hrun Hv.
  - unfold mret in Hrun. injection Hrun as <- _.
    rewrite with_buf_same. by destruct (shares_buffer _).
  - apply mbind_ok in Hrun as (s1 & cr & Hcr & Hrun).
    apply extract_order_ok in Hcr as (_ & _ & c0 & Hbc & _).
    rewrite (bin_counts_unfold _ _ _ f r c Hv) in Hbc.
    destruct (apply_mask _ _ _ _ _ _) as [b|e] eqn:Hb; [|done].
    apply apply_mask_ok in Hb. injection Hbc as Hd _.
    destruct (shares_buffer (st_data s)) eqn:Hshare.
    + apply IH in Hrun; [|by rewrite <- Hd]. rewrite Hrun, <- Hd.
      unfold shares_buffer in *. simpl. rewrite Hshare. unfold with_buf. simpl.
      by rewrite Hb.
    + apply IH in Hrun; [|by rewrite <- Hd]. rewrite Hrun, <- Hd, Hshare.
      done.
Qed.

(** X5: what a call that returns leaves in the caller's data array. When
    [bin_counts] works on the caller's memory (a 3D array, or a 4D array
    whose first two axes merge without a copy), the array has been
    multiplied by the mask of every order that was processed, one after
    the other (a mask of another shape than the frame counts for
    nothing). When the reshape of a 4D array copies, the caller's array
    is as it was. *)
Theorem extract_data_after data filt pixel_masks subarray units kwargs rng
    st res ws wbs f r c :
  trace_wavelengths None None 10 "SUBSTRIP256" = Ok ws ->
  wavelength_bins subarray = Ok wbs ->
  view3 (cshape data) = (f, r, c) ->
  extract trace_wavelengths wavelength_bins counts_to_flux random_normal
    combine_spectra argsort data filt pixel_masks subarray units kwargs rng
  = (st, Ok res) ->
  st_data st
  = if shares_buffer data
    then with_buf data
           (foldl (fun b o => masked_buffer (Some o.2) r c b) (cbuf data)
                  (zip (zip ws wbs) (default_masks data pixel_masks)))
    else data.
Proof.
  intros Hws Hwbs Hv Hrun.
  apply extract_ok in Hrun
    as (ws' & wbs' & s1 & results & counts & combined & fin
        & Hws' & Hwbs' & Horders & Hcomb & _ & _).
  rewrite Hws in Hws'. injection Hws' as <-.
  rewrite Hwbs in Hwbs'. injection Hwbs' as <-.
  apply extract_orders_data with (f := f) (r := r) (c := c) in Horders; [|done].
  pose proof (keeps_combine_frames (@st_data F R) results
                (seq 0 (shape0 (cshape data))) [] (fun _ _ _ _ => eq_refl) s1) as Hkeep.
  rewrite Hcomb in Hkeep. simpl in Hkeep. by rewrite Hkeep, Horders.
Qed.

Lemma extract_orders_Forall (P : spectra F -> Prop)
    filt subarray units kwargs n orders results counts (s s' : state)
    results' counts' :
  (forall n w wb m s s' cr,
     extract_order counts_to_flux random_normal argsort filt subarray units kwargs
       n w wb m s = (s', Ok cr) -> P cr.2) ->
  extract_orders counts_to_flux random_normal argsort filt subarray units kwargs n
    orders results counts s = (s', Ok (results', counts')) ->
  map_Forall (fun _ => P) results -> map_Forall (fun _ => P) results'.
Proof.
  intros Hstep. revert n results counts s.
  induction orders as [|[[w wb] m] orders IH]; simpl; intros n results counts s Hrun Hres.
  - unfold mret in Hrun. by injection Hrun as <- <- <-.
  - apply mbind_ok in Hrun as (s1 & cr & Hcr & Hrun).
    apply (IH _ _ _ _ Hrun). apply map_Forall_insert_2; [|done]. by eapply Hstep.
Qed.

Lemma extract_order_names filt subarray units kwargs n w wb m (s s' : state) cr :
  extract_order counts_to_flux random_normal argsort filt subarray units kwargs
    n w wb m s = (s', Ok cr) ->
  r_filter cr.2 = filt /\ r_subarray cr.2 = subarray.
Proof.
  unfold extract_order. intros Hrun.
  repeat (apply mbind_ok in Hrun as (? & ? & _ & Hrun)).
  unfold mret in Hrun. by injection Hrun as _ <-.
Qed.

(** X7: every record of the result, the per-order ones and [final],
    carries the filter and the subarray names the caller passed. *)
Theorem extract_record_names data filt pixel_masks subarray units kwargs rng
    st res name rec :
  extract trace_wavelengths wavelength_bins counts_to_flux random_normal
    combine_spectra argsort data filt pixel_masks subarray units kwargs rng = (st, Ok res) ->
  res !! name = Some rec ->
  r_filter rec = filt /\ r_subarray rec = subarray.
Proof.
  intros Hrun Hrec.
  apply extract_ok in Hrun
    as (ws & wbs & s1 & results & counts & combined & fin & _ & _ & Horders & _ & Hfin & ->).
  apply (extract_orders_Forall
           (fun rec => r_filter rec = filt /\ r_subarray rec = subarray)) in Horders;
    [|apply extract_order_names|apply map_Forall_empty].
  apply lookup_insert_Some in Hrec as [[_ <-]|[_ Hrec]]; [|by apply Horders in Hrec].
  unfold final_record in Hfin. destruct combined as [|c0 cs]; [done|].
  apply rbind_ok in Hfin as (flux & _ & Hfin).
  apply rbind_ok in Hfin as (unc & _ & Hfin).
  destruct counts; [|done]. by injection Hfin as <-.
Qed.

(** X8: on a cube without frames [extract] never returns: nothing is
    combined, and taking the first combined spectrum raises. *)
Theorem extract_no_frames data filt pixel_masks subarray units kwargs rng :
  shape0 (cshape data) = 0 ->
  is_ok (extract trace_wavelengths wavelength_bins counts_to_flux random_normal
           combine_spectra argsort data filt pixel_masks subarray units kwargs rng).2
  = false.
Proof.
  intros Hzero. unfold extract, extract_body. rewrite Hzero. simpl.
  apply not_true_is_false. intros Hok.
  destruct (mbind _ _ _) as [st [res|e]] eqn:Hrun; [|done].
  apply mbind_ok in Hrun as (s0 & ws & _ & Hrun).
  apply mbind_ok in Hrun as (s0' & wbs & _ & Hrun).
  apply mbind_ok in Hrun as (s1 & [results counts] & _ & Hrun).
  apply mbind_ok in Hrun as (s2 & combined & Hcomb & Hrun).
  apply mbind_ok in Hrun as (s3 & fin & Hfin & _).
  unfold mret in Hcomb. injection Hcomb as _ <-.
  by apply lift_ok in Hfin as [Hfin _].
Qed.

(** X9: [extract] fails whenever one of the two lookups gives fewer than
    two orders. *)
Theorem extract_few_orders data filt pixel_masks subarray units kwargs rng ws wbs :
  trace_wavelengths None None 10 "SUBSTRIP256" = Ok ws ->
  wavelength_bins subarray = Ok wbs ->
  length ws < 2 \/ length wbs < 2 ->
  is_ok (extract trace_wavelengths wavelength_bins counts_to_flux random_normal
           combine_spectra argsort data filt pixel_masks subarray units kwargs rng).2
  = false.
Proof.
  intros Hws Hwbs Hlen. unfold extract.
  apply not_true_is_false. intros Hok.
  destruct (extract_body _ _ _ _ _ _ _ _ _ _ _ _) as [st [res|e]] eqn:Hrun; [|done].
  apply extract_ok in Hrun
    as (ws' & wbs' & s1 & results & counts & combined & fin
        & Hws' & Hwbs' & Horders & Hcomb & Hfin & _).
  rewrite Hws in Hws'. injection Hws' as <-.
  rewrite Hwbs in Hwbs'. injection Hwbs' as <-.
  apply extract_orders_short in Horders; [|rewrite !length_zip_with; lia].
  pose proof (combine_without_order2 combine_spectra results
                (seq 0 (shape0 (cshape data))) counts filt subarray s1 Horders) as Hfail.
  unfold mbind in Hfail. rewrite Hcomb in Hfail. unfold lift in Hfail.
  simpl in Hfail. by rewrite Hfin in Hfail.
Qed.

(** X11: the result holds one record for each order processed, under
    order1, order2, ..., and the record final; it has no other key. *)
Theorem extract_keys data filt pixel_masks subarray units kwargs rng
    st res ws wbs :
  trace_wavelengths None None 10 "SUBSTRIP256" = Ok ws ->
  wavelength_bins subarray = Ok wbs ->
  extract trace_wavelengths wavelength_bins counts_to_flux random_normal
    combine_spectra argsort data filt pixel_masks subarray units kwargs rng = (st, Ok res) ->
  dom res
  = {["final"]} ∪
    list_to_set (order_name <$>
      seq 0 (length (zip (zip ws wbs) (default_masks data pixel_masks)))).
Proof.
  intros Hws Hwbs Hrun.
  apply extract_ok in Hrun
    as (ws' & wbs' & s1 & results & counts & combined & fin
        & Hws' & Hwbs' & Horders & _ & _ & ->).
  rewrite Hws in Hws'. injection Hws' as <-.
  rewrite Hwbs in Hwbs'. injection Hwbs' as <-.
  apply extract_orders_dom in Horders.
  by rewrite dom_insert_L, Horders, dom_empty_L, (left_id_L ∅ (∪)).
Qed.

Lemma bin_counts_ncols (d : cube F) wavebins mask counts :
  (bin_counts d wavebins mask).2 = Ok counts -> ncols counts = length wavebins.
Proof.
  destruct (view3 (cshape d)) as [[f r] c] eqn:Hv.
  rewrite (bin_counts_unfold d wavebins mask f r c Hv).
  destruct (apply_mask _ _ _ _ _ _) as [b|e]; [|done]. simpl.
  intros Hrun. by apply rbind_ok in Hrun as (cs & _ & [= <-]).
Qed.

Lemma take_cols_bound idx (a a' : array2 F) :
  take_cols idx a = Ok a' -> Forall (fun j => j < ncols a) idx.
Proof.
  unfold take_cols. destruct (forallb _ idx) eqn:Hall; [|done]. intros _.
  apply Forall_forall. intros j Hj.
  rewrite forallb_forall in Hall. apply list_elem_of_In, Hall in Hj.
  by apply Nat.ltb_lt.
Qed.

Lemma extract_order_lengths filt subarray units kwargs n w wb m (s s' : state) cr :
  extract_order counts_to_flux random_normal argsort filt subarray units kwargs
    n w wb m s = (s', Ok cr) ->
  argsort w ≡ₚ seq 0 (length w) ->
  length w <= length wb.
Proof.
  intros Hrun Hperm. apply extract_order_ok in Hrun as (_ & _ & counts & Hbc & Htake).
  apply (f_equal snd) in Hbc. simpl in Hbc. apply bin_counts_ncols in Hbc.
  apply take_cols_bound in Htake. rewrite Hbc in Htake.
  destruct (decide (length w <= length wb)) as [|Hgt]; [done|].
  rewrite Forall_forall in Htake.
  assert (Hin : length wb ∈ argsort w).
  { rewrite Hperm. apply elem_of_seq. lia. }
  apply Htake in Hin. lia.
Qed.

(** X12: an order with more wavelengths than bins makes [extract] fail:
    the sorted indices, a permutation of the positions of the
    wavelengths, reach past the columns of the counts. *)
Theorem extract_more_wavelengths_than_bins data filt pixel_masks subarray
    units kwargs rng ws wbs :
  (forall w, argsort w ≡ₚ seq 0 (length w)) ->
  trace_wavelengths None None 10 "SUBSTRIP256" = Ok ws ->
  wavelength_bins subarray = Ok wbs ->
  Exists (fun o : list F * list wavebin * ndarray F => length o.1.2 < length o.1.1)
         (zip (zip ws wbs) (default_masks data pixel_masks)) ->
  is_ok (extract trace_wavelengths wavelength_bins counts_to_flux random_normal
           combine_spectra argsort data filt pixel_masks subarray units kwargs rng).2
  = false.
Proof.
  intros Hperm Hws Hwbs Hex. unfold extract.
  apply not_true_is_false. intros Hok.
  destruct (extract_body _ _ _ _ _ _ _ _ _ _ _ _) as [st [res|e]] eqn:Hrun; [|done].
  apply extract_ok in Hrun
    as (ws' & wbs' & s1 & results & counts & combined & fin
        & Hws' & Hwbs' & Horders & _).
  rewrite Hws in Hws'. injection Hws' as <-.
  rewrite Hwbs in Hwbs'. injection Hwbs' as <-.
  revert Horders. generalize (State data rng []) as s. generalize (@None (array2 F)).
  generalize (∅ : gmap string (spectra F)). generalize 0.
  induction Hex as [[[w wb] m] orders Ho|[[w wb] m] orders _ IH];
    intros n results0 counts0 s Horders; simpl in Horders;
    apply mbind_ok in Horders as (s2 & cr & Hcr & Horders).
  - apply extract_order_lengths in Hcr; [|apply Hperm]. simpl in Ho. lia.
  - by eapply IH.
Qed.

Lemma extract_two_orders filt subarray units kwargs w1 wb1 m1 w2 wb2 m2
    (s s' : state) results counts :
  extract_orders counts_to_flux random_normal argsort filt subarray units kwargs 0
    [(w1, wb1, m1); (w2, wb2, m2)] ∅ None s = (s', Ok (results, counts)) ->
  exists s1 cr1 cr2,
    extract_order counts_to_flux random_normal argsort filt subarray units kwargs
      0 w1 wb1 m1 s = (s1, Ok cr1) /\
    extract_order counts_to_flux random_normal argsort filt subarray units kwargs
      1 w2 wb2 m2 s1 = (s', Ok cr2) /\
    results !! "order1" = Some cr1.2 /\ results !! "order2" = Some cr2.2.
Proof.
  simpl. intros Hrun.
  apply mbind_ok in Hrun as (s1 & cr1 & Hcr1 & Hrun).
  apply mbind_ok in Hrun as (s2 & cr2 & Hcr2 & Hrun).
  unfold mret in Hrun. injection Hrun as <- <- _.
  exists s1, cr1, cr2. split; [done|]. split; [done|].
  rewrite lookup_insert_ne by done. by rewrite !lookup_insert_eq.
Qed.

(** X13: with two orders, the counts of order 1 are binned from the data
    as the caller passed them, and the counts of order 2 from the array
    the first call to [bin_counts] left behind (weighted by the order-1
    mask where that call worked on the caller's memory, untouched where
    its reshape copied); the columns of each are then taken through the
    indices that [np.argsort] gives for the order's wavelengths. *)
Theorem extract_order_counts data filt pixel_masks subarray units kwargs rng
    st res ws wbs w1 wb1 m1 w2 wb2 m2 :
  trace_wavelengths None None 10 "SUBSTRIP256" = Ok ws ->
  wavelength_bins subarray = Ok wbs ->
  zip (zip ws wbs) (default_masks data pixel_masks) = [(w1, wb1, m1); (w2, wb2, m2)] ->
  extract trace_wavelengths wavelength_bins counts_to_flux random_normal
    combine_spectra argsort data filt pixel_masks subarray units kwargs rng = (st, Ok res) ->
  exists (o1 o2 : spectra F) (c1 c2 : array2 F),
    res !! "order1" = Some o1 /\ res !! "order2" = Some o2 /\
    (bin_counts data wb1 (Some m1)).2 = Ok c1 /\
    take_cols (argsort w1) c1 = Ok (r_counts o1) /\
    (bin_counts (bin_counts data wb1 (Some m1)).1 wb2 (Some m2)).2 = Ok c2 /\
    take_cols (argsort w2) c2 = Ok (r_counts o2).
Proof.
  intros Hws Hwbs Hzip Hrun.
  apply extract_ok in Hrun
    as (ws' & wbs' & s1 & results & counts & combined & fin
        & Hws' & Hwbs' & Horders & _ & _ & ->).
  rewrite Hws in Hws'. injection Hws' as <-.
  rewrite Hwbs in Hwbs'. injection Hwbs' as <-.
  rewrite Hzip in Horders.
  apply extract_two_orders in Horders as (s0 & cr1 & cr2 & Hcr1 & Hcr2 & Ho1 & Ho2).
  apply extract_order_steps in Hcr1 as (c1 & f1 & u1 & Hbc1 & _ & _ & _ & Hc1 & _).
  apply extract_order_steps in Hcr2 as (c2 & f2 & u2 & Hbc2 & _ & _ & _ & Hc2 & _).
  exists cr1.2, cr2.2, c1, c2. rewrite !lookup_insert_ne by done.
  simpl in Hbc1. rewrite Hbc1. simpl. by rewrite Hbc2.
Qed.

(** X14: with two orders, the flux of order k is what the calibration
    returns for the unsorted wavelengths of that order and the counts
    [bin_counts] returned for it (order 2 binned from the array the
    order-1 call left behind) with [order=k], and the uncertainty is one
    draw per order with the flux as location and 0.01 times the flux as
    scale, the second draw from the generator state the first one left;
    the columns of both are then taken through the indices that
    [np.argsort] gives for the order's wavelengths. *)
Theorem extract_order_flux data filt pixel_masks subarray units kwargs rng
    st res ws wbs w1 wb1 m1 w2 wb2 m2 :
  trace_wavelengths None None 10 "SUBSTRIP256" = Ok ws ->
  wavelength_bins subarray = Ok wbs ->
  zip (zip ws wbs) (default_masks data pixel_masks) = [(w1, wb1, m1); (w2, wb2, m2)] ->
  extract trace_wavelengths wavelength_bins counts_to_flux random_normal
    combine_spectra argsort data filt pixel_masks subarray units kwargs rng = (st, Ok res) ->
  exists (o1 o2 : spectra F) (c1 f1 u1 c2 f2 u2 : array2 F) (g1 : R),
    res !! "order1" = Some o1 /\ res !! "order2" = Some o2 /\
    (bin_counts data wb1 (Some m1)).2 = Ok c1 /\
    (bin_counts (bin_counts data wb1 (Some m1)).1 wb2 (Some m2)).2 = Ok c2 /\
    take_cols (argsort w1) c1 = Ok (r_counts o1) /\
    counts_to_flux w1 c1 filt subarray 1 units kwargs = Ok f1 /\
    random_normal rng f1 (scale_centi f1) = (g1, Ok u1) /\
    take_cols (argsort w1) f1 = Ok (r_flux o1) /\
    take_cols (argsort w1) u1 = Ok (r_unc o1) /\
    take_cols (argsort w2) c2 = Ok (r_counts o2) /\
    counts_to_flux w2 c2 filt subarray 2 units kwargs = Ok f2 /\
    random_normal g1 f2 (scale_centi f2) = (st_rng st, Ok u2) /\
    take_cols (argsort w2) f2 = Ok (r_flux o2) /\
    take_cols (argsort w2) u2 = Ok (r_unc o2).
Proof.
  intros Hws Hwbs Hzip Hrun.
  apply extract_ok in Hrun
    as (ws' & wbs' & s1 & results & counts & combined & fin
        & Hws' & Hwbs' & Horders & Hcomb & _ & ->).
  rewrite Hws in Hws'. injection Hws' as <-.
  rewrite Hwbs in Hwbs'. injection Hwbs' as <-.
  rewrite Hzip in Horders.
  apply extract_two_orders in Horders as (s0 & cr1 & cr2 & Hcr1 & Hcr2 & Ho1 & Ho2).
  apply extract_order_steps in Hcr1
    as (c1 & f1 & u1 & Hbc1 & Hf1 & Hu1 & _ & Hc1 & Hsf1 & Hsu1).
  apply extract_order_steps in Hcr2
    as (c2 & f2 & u2 & Hbc2 & Hf2 & Hu2 & _ & Hc2 & Hsf2 & Hsu2).
  pose proof (keeps_combine_frames (@st_rng F R) results
                (seq 0 (shape0 (cshape data))) [] (fun _ _ _ _ => eq_refl) s1) as Hkeep.
  rewrite Hcomb in Hkeep. simpl in Hkeep, Hu1. rewrite <- Hkeep in Hu2.
  exists cr1.2, cr2.2, c1, f1, u1, c2, f2, u2, (st_rng s0).
  rewrite !lookup_insert_ne by done.
  simpl in Hbc1. rewrite Hbc1. simpl. rewrite Hbc2. done.
Qed.
End ExtractState.

Section SortedInput.
Context {F : Type} `{FloatOps F}.

Lemma seq_strongly_sorted (w : list F) s n :
  strictly_ascending w -> s + n <= length w ->
  StronglySorted (key_le w) (seq s n).
Proof.
  intros Hasc. revert s. induction n as [|n IH]; intros s Hlen; simpl; constructor.
  - apply IH. lia.
  - apply Forall_forall. intros j Hj. apply elem_of_seq in Hj.
    apply Hasc; lia.
Qed.

Lemma argsort_ascending (argsort : list F -> list nat) (w : list F) :
  argsort_contract argsort ->
  (forall x y z : F, fle x y = true -> fle y z = true -> fle x z = true) ->
  strictly_ascending w -> argsort w = seq 0 (length w).
Proof.
  intros Hsort Htrans Hasc. destruct (Hsort w) as [Hperm Hsorted].
  assert (Transitive (key_le w)) by (intros i j k; apply Htrans).
  apply (StronglySorted_unique_strong (key_le w)).
  - intros i j Hi Hj Hij Hji. apply elem_of_seq in Hj.
    rewrite Hperm in Hi. apply elem_of_seq in Hi.
    destruct (Nat.lt_trichotomy i j) as [Hlt|[->|Hgt]]; [|done|].
    + destruct (Hasc i j) as [_ Hf]; [lia..|]. unfold key_le in Hji. congruence.
    + destruct (Hasc j i) as [_ Hf]; [lia..|]. unfold key_le in Hij. congruence.
  - by apply Sorted_StronglySorted.
  - by apply seq_strongly_sorted.
  - done.
Qed.

Lemma take_idx_seq (w : list F) : take_idx (seq 0 (length w)) w = w.
Proof.
  unfold take_idx. apply list_eq. intros i. rewrite list_lookup_fmap.
  destruct (decide (i < length w)) as [Hi|Hi].
  - rewrite lookup_seq_lt by done. simpl.
    destruct (lookup_lt_is_Some_2 w i Hi) as [x Hx].
    by rewrite Hx, (nth_lookup_Some _ _ _ _ Hx).
  - rewrite lookup_seq_ge by lia. simpl. symmetry. apply lookup_ge_None. lia.
Qed.

Lemma take_cols_seq (a : array2 F) :
  wf_array2 a -> take_cols (seq 0 (ncols a)) a = Ok a.
Proof.
  intros Hwf. unfold take_cols.
  assert (forallb (fun j => j <? ncols a) (seq 0 (ncols a)) = true) as ->.
  { apply forallb_forall. intros j Hj. apply list_elem_of_In, elem_of_seq in Hj.
    apply Nat.ltb_lt. lia. }
  destruct a as [nr nc el]. unfold wf_array2 in Hwf. simpl in *.
  rewrite length_seq. f_equal. f_equal.
  assert (Hlen : length (flat_map (fun i => map (fun j => at2 (Array2 nr nc el) i j)
                                             (seq 0 nc)) (seq 0 nr)) = nr * nc).
  { apply flat_map_rows_length. intros r. by rewrite length_map, length_seq. }
  apply (list_eq_same_length _ _ (nr * nc)); [done|done|].
  intros p x y Hp Hx Hy.
  assert (Hnc : 0 < nc) by (destruct nc; lia).
  assert (Hdiv : p = p / nc * nc + p mod nc).
  { rewrite (Nat.div_mod_eq p nc) at 1. lia. }
  assert (Hmod : p mod nc < nc) by (apply Nat.mod_upper_bound; lia).
  assert (Hrow : p / nc < nr).
  { apply Nat.Div0.div_lt_upper_bound. lia. }
  rewrite Hdiv in Hx.
  rewrite (flat_map_rows_lookup _ nc) in Hx;
    [|intros r; by rewrite length_map, length_seq|done|done].
  rewrite list_lookup_fmap, lookup_seq_lt in Hx by done. simpl in Hx.
  injection Hx as <-. unfold at2. simpl. rewrite <- Hdiv.
  by apply nth_lookup_Some.
Qed.

(** X10: on wavelengths that are strictly ascending already, the sort is
    the identity: [argsort] (any function that returns a sorting
    permutation of the positions) returns the indices in their order,
    the wavelengths stay as they are, and so does an array with one
    column for each wavelength whose columns are taken through the
    indices. *)
Theorem sort_ascending_identity (argsort : list F -> list nat) (w : list F)
    (a : array2 F) :
  argsort_contract argsort ->
  (forall x y z : F, fle x y = true -> fle y z = true -> fle x z = true) ->
  strictly_ascending w ->
  argsort w = seq 0 (length w) /\
  take_idx (argsort w) w = w /\
  (wf_array2 a -> ncols a = length w -> take_cols (argsort w) a = Ok a).
Proof.
  intros Hsort Htrans Hasc.
  rewrite (argsort_ascending argsort w Hsort Htrans Hasc).
  split; [done|]. split; [apply take_idx_seq|].
  intros Hwf <-. by apply take_cols_seq.
Qed.
End SortedInput.


(** * The further properties on concrete inputs *)

Lemma xle_trans (x y z : xfloat) :
  fle x y = true -> fle y z = true -> fle x z = true.
Proof.
  destruct x as [|p], y as [|q], z as [|r]; simpl; try done.
  rewrite !Qle_bool_iff. apply Qle_trans.
Qed.

Lemma cfloat_masked_out (x : cfloat) :
  fadd fzero (replace_nan (fmul x fzero)) = fzero.
Proof.
  destruct x as [|z]; [done|]. unfold replace_nan. simpl.
  by rewrite Z.mul_0_r.
Qed.

Lemma ascending_strictly : strictly_ascending Example.ascending.
Proof.
  intros i j Hij Hj. simpl in Hj.
  destruct j as [|[|[|j]]]; [lia| | |lia];
    destruct i as [|[|i]]; try lia; by vm_compute.
Qed.


(** The ways [bin_counts] raises: a bin out of range on a float cube, a
    mask of floats on an integer cube, a mask on a read-only cube (which
    is binned without a mask). *)
Lemma bin_counts_raises_examples :
  (bin_counts Example.data [Example.all_pixels; Example.out_of_range] None).2
  = Raise IndexError
  /\ (bin_counts Example.int_data [Example.all_pixels; Example.out_of_range]
        (Some Example.ones)).2 = Raise TypeError
  /\ (bin_counts Example.int_data [Example.all_pixels; Example.out_of_range]
        (Some Example.ones)).1 = Example.int_data
  /\ (bin_counts Example.read_only [Example.all_pixels] (Some Example.ones)).2
     = Raise ValueError
  /\ (bin_counts Example.read_only [Example.all_pixels] None).2
     = Ok (Array2 2 1 (map xn [10; 26]%Z)).
Proof. vm_compute. repeat split. Qed.

(** [bin_counts_zero_mask] on the top row of two frames, one pixel of
    which is NaN, under a mask that is zero on the top row. *)
Lemma bin_counts_zero_mask_witness :
  at2 Fixed.counts 0 0 = fzero /\ at2 Fixed.counts 1 0 = fzero.
Proof.
  assert (Hall : forall fr, fr < 2 -> at2 Fixed.counts fr 0 = fzero).
  { apply (bin_counts_zero_mask Fixed.data [Example.top_row; Example.all_pixels]
             Fixed.bottom_row 2 2 2 Fixed.counts 0 Example.top_row [(0, 0); (0, 1)]
             cfloat_masked_out).
    - reflexivity.
    - reflexivity.
    - reflexivity.
    - reflexivity.
    - reflexivity.
    - reflexivity.
    - repeat constructor. }
  split; apply Hall; lia.
Defined.

(** [bin_counts_data_after] on a mask of the frame's shape. *)
Lemma bin_counts_data_after_witness :
  cshape (bin_counts Example.data [Example.all_pixels] (Some Example.left_column)).1
  = cshape Example.data /\
  wf_cube (bin_counts Example.data [Example.all_pixels] (Some Example.left_column)).1 /\
  (shares_buffer Example.data = true ->
   mask_accepted Example.data (Some Example.left_column) = true ->
   forall fr x y, fr < 2 -> x < 2 -> y < 2 ->
     pixel 2 2
       (cbuf (bin_counts Example.data [Example.all_pixels]
                (Some Example.left_column)).1) fr x y
     = masked_count Example.data (Some Example.left_column) fr x y) /\
  (shares_buffer Example.data = false \/
   mask_accepted Example.data (Some Example.left_column) = false ->
   (bin_counts Example.data [Example.all_pixels] (Some Example.left_column)).1
   = Example.data).
Proof.
  apply (bin_counts_data_after Example.data [Example.all_pixels]
           (Some Example.left_column) 2 2 2); reflexivity.
Defined.

(** A 4D array whose first two axes do not merge in place: the mask
    weights the counts that are returned, the caller's array stays as it
    was. *)
Lemma bin_counts_copy_example :
  bin_counts Example.strided4 [([0%Z], [0%Z; 1%Z])] (Some Example.one_row_mask)
  = (Example.strided4, Ok (Array2 4 1 (map xn [1; 3; 5; 7]%Z))).
Proof. vm_compute. reflexivity. Qed.

(** [extract_ones_keeps_data] on the default masks. *)
Lemma extract_ones_keeps_data_witness :
  st_data (Example.run Example.data None "SUBSTRIP256").1 = Example.data.
Proof.
  apply (extract_ones_keeps_data Example.trace_wavelengths Example.wavelength_bins
           Example.counts_to_flux Example.random_normal Example.combine_spectra
           merge_argsort Example.data "CLEAR" None "SUBSTRIP256" tt tt 0 xmul_one_r).
  constructor.
Defined.

(** [extract_data_after] on the run with one mask for each order: every
    element has been multiplied by both masks. *)
Lemma extract_data_after_witness :
  st_data Example.masked.1
  = if shares_buffer Example.data
    then with_buf Example.data
           (foldl (fun b o => masked_buffer (Some o.2) 2 2 b) (cbuf Example.data)
              (zip (zip [map xn [3; 1; 2]%Z; map xn [2; 1]%Z]
                        [[Example.all_pixels; Example.top_row; Example.last_pixel];
                         [Example.all_pixels; Example.last_pixel]])
                   (default_masks Example.data
                      (Some [Example.left_column; Example.right_column]))))
    else Example.data.
Proof.
  apply (extract_data_after Example.trace_wavelengths Example.wavelength_bins
           Example.counts_to_flux Example.random_normal Example.combine_spectra
           merge_argsort
           Example.data "CLEAR" (Some [Example.left_column; Example.right_column])
           "SUBSTRIP256" tt tt 0 Example.masked.1 Example.masked_results
           [map xn [3; 1; 2]%Z; map xn [2; 1]%Z]
           [[Example.all_pixels; Example.top_row; Example.last_pixel];
            [Example.all_pixels; Example.last_pixel]] 2 2 2).
  - reflexivity.
  - reflexivity.
  - reflexivity.
  - vm_compute. reflexivity.
Defined.


(** [extract_record_names] on the order-1 record of the example run. *)
Lemma extract_record_names_witness :
  r_filter Example.order1 = "CLEAR" /\ r_subarray Example.order1 = "SUBSTRIP256".
Proof.
  apply (extract_record_names Example.trace_wavelengths Example.wavelength_bins
           Example.counts_to_flux Example.random_normal Example.combine_spectra
           merge_argsort Example.data "CLEAR" None "SUBSTRIP256" tt tt 0
           Example.outcome.1 Example.results "order1" Example.order1).
  - vm_compute. reflexivity.
  - vm_compute. reflexivity.
Defined.

(** [extract_no_frames] on a cube of shape (0, 2, 2). *)
Lemma extract_no_frames_witness :
  is_ok (Example.run Example.no_frames None "SUBSTRIP256").2 = false.
Proof.
  apply (extract_no_frames Example.trace_wavelengths Example.wavelength_bins
           Example.counts_to_flux Example.random_normal Example.combine_spectra
           merge_argsort Example.no_frames "CLEAR" None "SUBSTRIP256" tt tt 0).
  reflexivity.
Defined.

(** [extract_few_orders] on a bin lookup with a single order. *)
Lemma extract_few_orders_witness :
  is_ok (extract Example.trace_wavelengths Example.one_order_bins
           Example.counts_to_flux Example.random_normal Example.combine_spectra
           merge_argsort Example.data "CLEAR" None "SUBSTRIP256" tt tt 0).2 = false.
Proof.
  apply (extract_few_orders Example.trace_wavelengths Example.one_order_bins
           Example.counts_to_flux Example.random_normal Example.combine_spectra
           merge_argsort Example.data "CLEAR" None "SUBSTRIP256" tt tt 0
           [map xn [3; 1; 2]%Z; map xn [2; 1]%Z]
           [[Example.all_pixels; Example.top_row; Example.last_pixel]]).
  - reflexivity.
  - reflexivity.
  - right. simpl. lia.
Defined.

(** [sort_ascending_identity] on three ascending wavelengths. *)
Lemma sort_ascending_identity_witness :
  merge_argsort Example.ascending = seq 0 (length Example.ascending) /\
  take_idx (merge_argsort Example.ascending) Example.ascending = Example.ascending /\
  (wf_array2 Example.table -> ncols Example.table = length Example.ascending ->
   take_cols (merge_argsort Example.ascending) Example.table = Ok Example.table).
Proof.
  apply (sort_ascending_identity merge_argsort Example.ascending Example.table
           xfloat_argsort xle_trans ascending_strictly).
Defined.

(** [extract_keys] on the example run. *)
Lemma extract_keys_witness :
  dom Example.results
  = {["final"]} ∪
    list_to_set (order_name <$>
      seq 0 (length (zip (zip [map xn [3; 1; 2]%Z; map xn [2; 1]%Z]
                              [[Example.all_pixels; Example.top_row; Example.last_pixel];
                               [Example.all_pixels; Example.last_pixel]])
                         (default_masks Example.data None)))).
Proof.
  apply (extract_keys Example.trace_wavelengths Example.wavelength_bins
           Example.counts_to_flux Example.random_normal Example.combine_spectra
           merge_argsort Example.data "CLEAR" None "SUBSTRIP256" tt tt 0
           Example.outcome.1 Example.results).
  - reflexivity.
  - reflexivity.
  - vm_compute. reflexivity.
Defined.

(** [extract_more_wavelengths_than_bins] on four wavelengths for three
    bins. *)
Lemma extract_more_wavelengths_than_bins_witness :
  is_ok (extract Example.four_wavelengths Example.wavelength_bins
           Example.counts_to_flux Example.random_normal Example.combine_spectra
           merge_argsort Example.data "CLEAR" None "SUBSTRIP256" tt tt 0).2 = false.
Proof.
  apply (extract_more_wavelengths_than_bins Example.four_wavelengths
           Example.wavelength_bins Example.counts_to_flux Example.random_normal
           Example.combine_spectra merge_argsort Example.data "CLEAR" None "SUBSTRIP256" tt tt 0
           [map xn [3; 1; 2; 4]%Z; map xn [2; 1]%Z]
           [[Example.all_pixels; Example.top_row; Example.last_pixel];
            [Example.all_pixels; Example.last_pixel]]).
  - intros w. apply xfloat_argsort.
  - reflexivity.
  - reflexivity.
  - apply Exists_cons_hd. simpl. lia.
Defined.

(** [extract_order_counts] on the run with one mask for each order. *)
Lemma extract_order_counts_witness :
  exists (o1 o2 : spectra xfloat) (c1 c2 : array2 xfloat),
    Example.masked_results !! "order1" = Some o1 /\
    Example.masked_results !! "order2" = Some o2 /\
    (bin_counts Example.data
       [Example.all_pixels; Example.top_row; Example.last_pixel]
       (Some Example.left_column)).2 = Ok c1 /\
    take_cols (merge_argsort (map xn [3; 1; 2]%Z)) c1 = Ok (r_counts o1) /\
    (bin_counts
       (bin_counts Example.data
          [Example.all_pixels; Example.top_row; Example.last_pixel]
          (Some Example.left_column)).1
       [Example.all_pixels; Example.last_pixel] (Some Example.right_column)).2 = Ok c2 /\
    take_cols (merge_argsort (map xn [2; 1]%Z)) c2 = Ok (r_counts o2).
Proof.
  apply (extract_order_counts Example.trace_wavelengths Example.wavelength_bins
           Example.counts_to_flux Example.random_normal Example.combine_spectra
           merge_argsort Example.data "CLEAR" (Some [Example.left_column; Example.right_column])
           "SUBSTRIP256" tt tt 0 Example.masked.1 Example.masked_results
           [map xn [3; 1; 2]%Z; map xn [2; 1]%Z]
           [[Example.all_pixels; Example.top_row; Example.last_pixel];
            [Example.all_pixels; Example.last_pixel]]).
  - reflexivity.
  - reflexivity.
  - reflexivity.
  - vm_compute. reflexivity.
Defined.

(** [extract_order_flux] on the run with one mask for each order. *)
Lemma extract_order_flux_witness :
  exists (o1 o2 : spectra xfloat) (c1 f1 u1 c2 f2 u2 : array2 xfloat) (g1 : nat),
    Example.masked_results !! "order1" = Some o1 /\
    Example.masked_results !! "order2" = Some o2 /\
    (bin_counts Example.data
       [Example.all_pixels; Example.top_row; Example.last_pixel]
       (Some Example.left_column)).2 = Ok c1 /\
    (bin_counts
       (bin_counts Example.data
          [Example.all_pixels; Example.top_row; Example.last_pixel]
          (Some Example.left_column)).1
       [Example.all_pixels; Example.last_pixel] (Some Example.right_column)).2 = Ok c2 /\
    take_cols (merge_argsort (map xn [3; 1; 2]%Z)) c1 = Ok (r_counts o1) /\
    Example.counts_to_flux (map xn [3; 1; 2]%Z) c1 "CLEAR" "SUBSTRIP256" 1 tt tt = Ok f1 /\
    Example.random_normal 0 f1 (scale_centi f1) = (g1, Ok u1) /\
    take_cols (merge_argsort (map xn [3; 1; 2]%Z)) f1 = Ok (r_flux o1) /\
    take_cols (merge_argsort (map xn [3; 1; 2]%Z)) u1 = Ok (r_unc o1) /\
    take_cols (merge_argsort (map xn [2; 1]%Z)) c2 = Ok (r_counts o2) /\
    Example.counts_to_flux (map xn [2; 1]%Z) c2 "CLEAR" "SUBSTRIP256" 2 tt tt = Ok f2 /\
    Example.random_normal g1 f2 (scale_centi f2) = (st_rng Example.masked.1, Ok u2) /\
    take_cols (merge_argsort (map xn [2; 1]%Z)) f2 = Ok (r_flux o2) /\
    take_cols (merge_argsort (map xn [2; 1]%Z)) u2 = Ok (r_unc o2).
Proof.
  apply (extract_order_flux Example.trace_wavelengths Example.wavelength_bins
           Example.counts_to_flux Example.random_normal Example.combine_spectra
           merge_argsort Example.data "CLEAR" (Some [Example.left_column; Example.right_column])
           "SUBSTRIP256" tt tt 0 Example.masked.1 Example.masked_results
           [map xn [3; 1; 2]%Z; map xn [2; 1]%Z]
           [[Example.all_pixels; Example.top_row; Example.last_pixel];
            [Example.all_pixels; Example.last_pixel]]
           (map xn [3; 1; 2]%Z)
           [Example.all_pixels; Example.top_row; Example.last_pixel] Example.left_column
           (map xn [2; 1]%Z) [Example.all_pixels; Example.last_pixel]
           Example.right_column).
  - reflexivity.
  - reflexivity.
  - reflexivity.
  - vm_compute. reflexivity.
Defined.
